(** * Basket-RP: the profile and stat-point ledger

    A shallow embedding of the rule logic of the bot (config.py, models.py,
    utils.py and the command handlers of commands_old.py, slash_commands.py
    and admin_commands.py), and the properties of it that the specification
    states.

    Conventions of the embedding:
    - a Python [int] is a [Z];
    - a Python [str] is the list of its code points ([list N]); literals are
      read from their UTF-8 bytes by [py];
    - a [dict] that the code only reads, or iterates in declaration order, is
      an association list; [profile.stats], which the code updates by key, is
      a [gmap];
    - the sqlite store is a record of the two tables; a handler takes the
      store and returns the reply it sends together with the new store;
    - an uncaught Python exception is the reply [Raised]. *)

From Stdlib Require Import ZArith NArith List String Ascii Bool Lia QArith.
From Stdlib Require Import DecimalString Sorted.
From Stdlib Require Import Floats.SpecFloat Floats.FloatOps.
From stdpp Require Import gmap list.
Import ListNotations.

Local Open Scope Z_scope.

(** ** Python strings *)

Abbreviation str := (list N).

Module PyStr.

(** A string literal of the source, decoded from UTF-8. [need] is the
    number of continuation bytes still expected and [acc] the bits read so
    far. *)
Fixpoint decode_utf8 (s : string) (need : nat) (acc : N) : str :=
  match s with
  | EmptyString => []
  | String a rest =>
      let b := N_of_ascii a in
      match need with
      | O =>
          if (b <? 128)%N then b :: decode_utf8 rest 0 0%N
          else if (b <? 224)%N then decode_utf8 rest 1 (b - 192)%N
          else if (b <? 240)%N then decode_utf8 rest 2 (b - 224)%N
          else decode_utf8 rest 3 (b - 240)%N
      | S O => (acc * 64 + (b - 128))%N :: decode_utf8 rest 0 0%N
      | S n => decode_utf8 rest n (acc * 64 + (b - 128))%N
      end
  end.

Definition py (s : string) : str := decode_utf8 s 0 0%N.

(** [str.lower()] and [str.upper()], on Basic Latin and the Latin-1
    Supplement (code points below U+0100), where they are Python's:
    A-Z and U+00C0..U+00DE (without the multiplication sign U+00D7) go 32
    up; a-z and U+00E0..U+00FE (without the division sign U+00F7) go 32
    down; sharp s becomes SS, the micro sign becomes capital mu, y with
    diaeresis becomes U+0178. A code point from U+0100 on is left as it
    is, so the statements about these two maps are made for [latin1]
    strings. *)
Definition lower_cp (c : N) : N :=
  if ((65 <=? c) && (c <=? 90) || (192 <=? c) && (c <=? 222) && negb (c =? 215))%N
  then (c + 32)%N else c.

Definition upper_cp (c : N) : str :=
  if ((97 <=? c) && (c <=? 122) || (224 <=? c) && (c <=? 254) && negb (c =? 247))%N
  then [(c - 32)%N]
  else if (c =? 223)%N then [83%N; 83%N]
  else if (c =? 181)%N then [924%N]
  else if (c =? 255)%N then [376%N]
  else [c].

Definition lower (s : str) : str := map lower_cp s.
Definition upper (s : str) : str := flat_map upper_cp s.

Definition latin1 (s : str) : Prop := Forall (fun c => (c < 256)%N) s.

(** [b.startswith(a)] and [a in b]. *)
Fixpoint startswith (b a : str) : bool :=
  match a, b with
  | [], _ => true
  | _ :: _, [] => false
  | x :: a', y :: b' => (x =? y)%N && startswith b' a'
  end.

Fixpoint contains (b a : str) : bool :=
  startswith b a || match b with [] => false | _ :: b' => contains b' a end.

End PyStr.
Import PyStr.

(** ** Read-only dictionaries, in declaration order *)

Section Dict.
Context {V : Type}.

Fixpoint dict_get (d : list (str * V)) (k : str) : option V :=
  match d with
  | [] => None
  | (k', v) :: d' => if bool_decide (k = k') then Some v else dict_get d' k
  end.

Definition dict_mem (d : list (str * V)) (k : str) : bool :=
  match dict_get d k with Some _ => true | None => false end.

Definition dict_keys (d : list (str * V)) : list str := map fst d.
End Dict.

(** ** config.py *)

Module Names.
Definition Force_Physique : str := Eval vm_compute in py "Force Physique".
Definition Precision : str := Eval vm_compute in py "Précision".
Definition Manip_Ballon : str := Eval vm_compute in py "Manip. Ballon".
Definition Agilite : str := Eval vm_compute in py "Agilité".
Definition Detente : str := Eval vm_compute in py "Détente".
Definition Defense : str := Eval vm_compute in py "Défense".
Definition Vitesse : str := Eval vm_compute in py "Vitesse".
Definition Endurance : str := Eval vm_compute in py "Endurance".

Definition Meneur : str := Eval vm_compute in py "Meneur".
Definition Arriere : str := Eval vm_compute in py "Arrière".
Definition Ailier : str := Eval vm_compute in py "Ailier".
Definition Ailier_Fort : str := Eval vm_compute in py "Ailier Fort".
Definition Pivot : str := Eval vm_compute in py "Pivot".
Definition Generaliste : str := Eval vm_compute in py "Généraliste".
End Names.
Import Names.

Record Archetype := {
  description : str;
  stat_bonuses : list (str * Z);
  position : str
}.

Definition ARCHETYPES : list (str * Archetype) :=
  [ (Meneur,
     {| description := py "Spécialisé dans la distribution et la vision de jeu";
        stat_bonuses := [ (Manip_Ballon, 15); (Agilite, 10); (Vitesse, 10);
                          (Precision, 5); (Force_Physique, -10); (Detente, -5) ];
        position := py "Guard" |});
    (Arriere,
     {| description := py "Excellent tireur avec une bonne vision défensive";
        stat_bonuses := [ (Precision, 15); (Defense, 10); (Vitesse, 5);
                          (Agilite, 5); (Force_Physique, -5); (Detente, -5) ];
        position := py "Guard" |});
    (Ailier,
     {| description := py "Joueur polyvalent, équilibré dans tous les domaines";
        stat_bonuses := [ (Agilite, 8); (Precision, 7); (Defense, 7);
                          (Vitesse, 3); (Force_Physique, -5) ];
        position := py "Forward" |});
    (Ailier_Fort,
     {| description := py "Joueur physique avec un bon jeu près du panier";
        stat_bonuses := [ (Force_Physique, 15); (Detente, 10); (Defense, 8);
                          (Endurance, 2); (Vitesse, -10); (Agilite, -5) ];
        position := py "Forward" |});
    (Pivot,
     {| description := py "Dominant dans la raquette, excellent rebondeur";
        stat_bonuses := [ (Force_Physique, 20); (Detente, 15); (Defense, 10);
                          (Endurance, 5); (Vitesse, -15); (Agilite, -10);
                          (Precision, -5) ];
        position := py "Center" |});
    (Generaliste,
     {| description := py "Aucune spécialisation, statistiques équilibrées";
        stat_bonuses := [];
        position := py "Flexible" |}) ].

Definition ROLE_ARCHETYPE_MAPPING : list (str * str) :=
  [ (py "🏀 Meneur", Meneur);
    (py "🎯 Arrière", Arriere);
    (py "⚡ Ailier", Ailier);
    (py "💪 Ailier Fort", Ailier_Fort);
    (py "🏗️ Pivot", Pivot);
    (py "🔄 Flex", Generaliste) ].

Definition ADMIN_ROLES : list str :=
  [ py "Modérateur"; py "Administrateur"; py "Coach"; py "Staff" ].

(** A value of [BOT_CONFIG]. The dictionary of the source holds integers and
    one string; [CDict] is the kind of value that [reset_player] expects
    under the keys it reads. *)
Inductive ConfigValue :=
| CInt (n : Z)
| CStr (s : str)
| CDict (d : list (str * Z))
| CDicts (d : list (str * list (str * Z))).

Definition BOT_CONFIG : list (str * ConfigValue) :=
  [ (py "command_prefix", CStr (py "!"));
    (py "max_stat_value", CInt 1000);
    (py "min_stat_value", CInt 0);
    (py "base_stat_value", CInt 500);
    (py "max_points_per_add", CInt 100);
    (py "embed_color", CInt 16739125);
    (py "success_color", CInt 65280);
    (py "error_color", CInt 16711680);
    (py "warning_color", CInt 16776960) ].

Definition STAT_EMOJIS : list (str * str) :=
  [ (Force_Physique, py "💪");
    (Precision, py "🎯");
    (Manip_Ballon, py "🏀");
    (Agilite, py "⚡");
    (Detente, py "🦘");
    (Defense, py "🛡️");
    (Vitesse, py "💨");
    (Endurance, py "🔋") ].

Definition STAT_ABBREVIATIONS : list (str * str) :=
  [ (Force_Physique, py "FOR");
    (Precision, py "PREC");
    (Manip_Ballon, py "BALL");
    (Agilite, py "AGI");
    (Detente, py "DET");
    (Defense, py "DEF");
    (Vitesse, py "VIT");
    (Endurance, py "END") ].

(** [get_archetype_from_roles]: the archetype of the first role that names
    one, ["Généraliste"] when none does. *)
Fixpoint get_archetype_from_roles (member_roles : list str) : str :=
  match member_roles with
  | [] => Generaliste
  | role :: rest =>
      match dict_get ROLE_ARCHETYPE_MAPPING role with
      | Some a => a
      | None => get_archetype_from_roles rest
      end
  end.

(** [validate_stat_name]: the exact name, then an abbreviation (the token is
    upper-cased), then the first name that contains the lower-cased token. *)
Definition validate_stat_name (stat_name : str) : option str :=
  if dict_mem STAT_EMOJIS stat_name then Some stat_name
  else
    match find (fun '(_, abbrev) => bool_decide (upper stat_name = abbrev))
               STAT_ABBREVIATIONS with
    | Some (full_name, _) => Some full_name
    | None =>
        let stat_lower := lower stat_name in
        find (fun full_name => contains (lower full_name) stat_lower)
             (dict_keys STAT_EMOJIS)
    end.


(** ** models.py *)

Record PlayerProfile := {
  user_id : Z;
  username : str;
  archetype : str;
  stats : gmap str Z;
  available_points : Z;
  character_name : str;
  first_name : str;
  age : Z;
  height : Z;
  weight : Z;
  profile_image : str;
  embed_color : Z;
  created_at : Z;
  updated_at : Z
}.

Definition set_stats (p : PlayerProfile) (s : gmap str Z) : PlayerProfile :=
  {| user_id := user_id p; username := username p; archetype := archetype p;
     stats := s; available_points := available_points p;
     character_name := character_name p; first_name := first_name p;
     age := age p; height := height p; weight := weight p;
     profile_image := profile_image p; embed_color := embed_color p;
     created_at := created_at p; updated_at := updated_at p |}.

Definition set_available_points (p : PlayerProfile) (n : Z) : PlayerProfile :=
  {| user_id := user_id p; username := username p; archetype := archetype p;
     stats := stats p; available_points := n;
     character_name := character_name p; first_name := first_name p;
     age := age p; height := height p; weight := weight p;
     profile_image := profile_image p; embed_color := embed_color p;
     created_at := created_at p; updated_at := updated_at p |}.

Definition set_updated_at (p : PlayerProfile) (t : Z) : PlayerProfile :=
  {| user_id := user_id p; username := username p; archetype := archetype p;
     stats := stats p; available_points := available_points p;
     character_name := character_name p; first_name := first_name p;
     age := age p; height := height p; weight := weight p;
     profile_image := profile_image p; embed_color := embed_color p;
     created_at := created_at p; updated_at := t |}.

Module PlayerProfile.

(** [PlayerProfile.__init__]; [now] is the reading of the clock. *)
Definition init (user_id : Z) (username archetype : str) (now : Z) : PlayerProfile :=
  {| user_id := user_id; username := username; archetype := archetype;
     stats := list_to_map
                [ (Force_Physique, 500); (Precision, 500); (Manip_Ballon, 500);
                  (Agilite, 500); (Detente, 500); (Defense, 500);
                  (Vitesse, 500); (Endurance, 500) ];
     available_points := 0;
     character_name := []; first_name := []; age := 0; height := 0;
     weight := 0; profile_image := []; embed_color := 16739125;
     created_at := now; updated_at := now |}.

(** One turn of the loop of [apply_archetype_bonus]. *)
Definition apply_bonus (st : gmap str Z) (sb : str * Z) : gmap str Z :=
  let '(stat, bonus) := sb in
  match st !! stat with
  | Some v => <[stat := Z.max 0 (Z.min 100 (v + bonus))]> st
  | None => st
  end.

Definition apply_archetype_bonus (self : PlayerProfile)
    (archetype_config : list (str * Archetype)) : PlayerProfile :=
  match dict_get archetype_config (archetype self) with
  | Some a => set_stats self (fold_left apply_bonus (stat_bonuses a) (stats self))
  | None => self
  end.

(** [add_stat_points] returns its boolean and the profile as the call
    leaves it. *)
Definition add_stat_points (self : PlayerProfile) (stat : str) (points now : Z)
    : bool * PlayerProfile :=
  match stats self !! stat with
  | None => (false, self)
  | Some cur =>
      if (points <? 0) || (points >? available_points self) then (false, self)
      else
        let new_value := cur + points in
        if new_value >? 1000 then (false, self)
        else
          (true,
           set_updated_at
             (set_available_points
                (set_stats self (<[stat := new_value]> (stats self)))
                (available_points self - points))
             now)
  end.

Definition get_total_stats (self : PlayerProfile) : Z :=
  map_fold (fun _ v acc => acc + v) 0 (stats self).

End PlayerProfile.

(** ** The store (DatabaseManager) *)

Record LogEntry := {
  log_user_id : Z;
  action : str;
  details : str;
  admin_id : Z;
  timestamp : Z
}.

Record Store := {
  player_profiles : gmap Z PlayerProfile;
  action_logs : list LogEntry
}.

(** What a handler cannot decide: the clock, and whether sqlite accepts a
    write to the profile table. *)
Record World := {
  now : Z;
  disk_ok : bool
}.

Module DatabaseManager.

(** INSERT OR REPLACE on the primary key [user_id]; [False] and no change
    when sqlite raises. *)
Definition save_profile (w : World) (db : Store) (profile : PlayerProfile)
    : bool * Store :=
  if disk_ok w then
    (true, {| player_profiles := <[user_id profile := profile]> (player_profiles db);
              action_logs := action_logs db |})
  else (false, db).

(** [to_dict] followed by [from_dict] gives the stored fields back (the
    stats go through JSON and keep their keys and integers), so a read is
    a lookup. *)
Definition get_profile (db : Store) (uid : Z) : option PlayerProfile :=
  player_profiles db !! uid.

Definition log_action (w : World) (db : Store) (uid : Z) (act det : str)
    (admin : Z) : Store :=
  {| player_profiles := player_profiles db;
     action_logs := action_logs db ++
       [ {| log_user_id := uid; action := act; details := det;
            admin_id := admin; timestamp := now w |} ] |}.

End DatabaseManager.
Import DatabaseManager.

(** ** Discord objects, as far as the handlers read them *)

Record Member := {
  member_id : Z;
  display_name : str;
  roles : list str;
  administrator : bool;
  manage_guild : bool
}.

Record Guild := {
  owner_id : Z;
  members : gmap Z Member
}.

Record Interaction := {
  user : Z;
  user_display_name : str;
  guild : option Guild
}.

Inductive Exn :=
| KeyError (key : str)
| AttributeError
| TypeError
| ValueError.

(** The reply of a handler: one constructor per embed title, with the
    numbers the embed shows. In the vocabulary of the specification:
    [ProfilExistant] is AlreadyExists, [ProfilIntrouvable] NotFound,
    [StatistiqueInvalide] InvalidStat, [PointsInvalides] InvalidAmount,
    [TropDePoints] ExceedsBatchLimit, [PointsInsuffisants]
    InsufficientPoints, [LimiteDeStatAtteinte] StatCeilingExceeded,
    [ValeurInvalide] OutOfRange, [ErreurDeSauvegarde] and
    [ErreurDeCreation] PersistenceFailure. *)
Inductive Reply :=
| ProfilExistant
| ProfilIntrouvable
| AucunRole
| ProfilCree (archetype : str)
| ErreurDeCreation
| ErreurInterne
| StatistiqueInvalide (stat_name : str)
| PointsInvalides
| TropDePoints (limit : Z)
| PointsInsuffisants (available : Z)
| LimiteDeStatAtteinte (max_addable current_stat : Z)
| PointsAjoutes (stat : str) (old_value new_value remaining : Z)
| StatistiqueAmelioree (stat : str) (old_value new_value remaining : Z)
| ErreurDeSauvegarde
| Erreur
| PermissionRefusee
| ValeurInvalide (max_value : Z)
| StatistiqueModifiee (stat : str) (old_value new_value : Z)
| ConfirmationDeReinitialisation
| JoueurReinitialise
| ErreurDeReinitialisation
| Raised (e : Exn).

(** [BOT_CONFIG[key]] read as an integer. *)
Definition with_config_int (key : str) (db : Store)
    (k : Z -> Reply * Store) : Reply * Store :=
  match dict_get BOT_CONFIG key with
  | Some (CInt n) => k n
  | Some _ => (Raised TypeError, db)
  | None => (Raised (KeyError key), db)
  end.

(** [str(n)] *)
Definition str_of_int (n : Z) : str :=
  py (DecimalString.NilZero.string_of_int (Z.to_int n)).

(** ** commands_old.py: the prefix commands [!create] and [!add] *)

Module CommandsOld.

Definition create_profile (w : World) (db : Store) (author : Member)
    : Reply * Store :=
  match get_profile db (member_id author) with
  | Some _ => (ProfilExistant, db)
  | None =>
      let archetype := get_archetype_from_roles (roles author) in
      let profile :=
        PlayerProfile.init (member_id author) (display_name author) archetype (now w) in
      let profile := PlayerProfile.apply_archetype_bonus profile ARCHETYPES in
      let profile := set_available_points profile 200 in
      match save_profile w db profile with
      | (true, db') =>
          (ProfilCree archetype,
           log_action w db' (member_id author) (py "PROFILE_CREATED")
                      (py "Archetype: " ++ archetype) 0)
      | (false, db') => (ErreurDeCreation, db')
      end
  end.

Definition add_stat_points (w : World) (db : Store) (author : Member)
    (stat_name : str) (points : Z) : Reply * Store :=
  match get_profile db (member_id author) with
  | None => (ProfilIntrouvable, db)
  | Some profile =>
      match validate_stat_name stat_name with
      | None | Some [] => (StatistiqueInvalide stat_name, db)
      | Some validated_stat =>
          if points <=? 0 then (PointsInvalides, db)
          else
            with_config_int (py "max_points_per_add") db (fun max_points_per_add =>
            if points >? max_points_per_add then (TropDePoints max_points_per_add, db)
            else if points >? available_points profile
            then (PointsInsuffisants (available_points profile), db)
            else
              match stats profile !! validated_stat with
              | None => (Raised (KeyError validated_stat), db)
              | Some current_stat =>
                  with_config_int (py "max_stat_value") db (fun max_stat_value =>
                  if current_stat + points >? max_stat_value
                  then (LimiteDeStatAtteinte (max_stat_value - current_stat) current_stat, db)
                  else
                    match PlayerProfile.add_stat_points profile validated_stat points (now w) with
                    | (true, profile) =>
                        match save_profile w db profile with
                        | (true, db') =>
                            (PointsAjoutes validated_stat current_stat
                               (default 0 (stats profile !! validated_stat))
                               (available_points profile),
                             log_action w db' (member_id author) (py "POINTS_ADDED")
                               (str_of_int points ++ py " points added to " ++ validated_stat) 0)
                        | (false, db') => (ErreurDeSauvegarde, db')
                        end
                    | (false, _) => (Erreur, db)
                    end)
              end)
      end
  end.

End CommandsOld.

(** ** slash_commands.py: [/create] and [/addstat] *)

Module SlashCommands.

(** After the profile is saved and the action logged, the handler reads
    [archetype_info["bonuses"]]; the entries of [ARCHETYPES] have no such
    key, and the [except] clause of the handler answers "Erreur interne".
    The write has happened by then. *)
Definition create_profile (w : World) (db : Store) (interaction : Interaction)
    : Reply * Store :=
  match get_profile db (user interaction) with
  | Some _ => (ProfilExistant, db)
  | None =>
      let archetype :=
        match guild interaction with
        | Some g =>
            match members g !! user interaction with
            | Some member => Some (get_archetype_from_roles (roles member))
            | None => None
            end
        | None => None
        end in
      match archetype with
      | None | Some [] => (AucunRole, db)
      | Some archetype =>
          let profile :=
            PlayerProfile.init (user interaction) (user_display_name interaction)
                               archetype (now w) in
          match save_profile w db profile with
          | (true, db') =>
              (ErreurInterne,
               log_action w db' (user interaction) (py "PROFILE_CREATED")
                          (py "Archetype: " ++ archetype) 0)
          | (false, db') => (ErreurDeCreation, db')
          end
      end
  end.

Definition add_stat (w : World) (db : Store) (interaction : Interaction)
    (statistique : str) (points : Z) : Reply * Store :=
  match get_profile db (user interaction) with
  | None => (ProfilIntrouvable, db)
  | Some profile =>
      if points <=? 0 then (PointsInvalides, db)
      else if points >? available_points profile
      then (PointsInsuffisants (available_points profile), db)
      else
        match stats profile !! statistique with
        | None => (Raised (KeyError statistique), db)
        | Some current_stat =>
            with_config_int (py "max_stat_value") db (fun max_stat_value =>
            if current_stat + points >? max_stat_value
            then (LimiteDeStatAtteinte (max_stat_value - current_stat) current_stat, db)
            else
              let profile :=
                set_stats profile (<[statistique := current_stat + points]> (stats profile)) in
              let profile :=
                set_available_points profile (available_points profile - points) in
              let profile := set_updated_at profile (now w) in
              match save_profile w db profile with
              | (true, db') =>
                  (StatistiqueAmelioree statistique current_stat
                     (default 0 (stats profile !! statistique))
                     (available_points profile),
                   log_action w db' (user interaction) (py "STAT_ADDED")
                     (statistique ++ py ": +" ++ str_of_int points) 0)
              | (false, db') => (ErreurDeSauvegarde, db')
              end)
        end
  end.

End SlashCommands.

(** ** admin_commands.py: [/setstat] and [/resetplayer] *)

Module AdminCommands.

(** [config.is_admin], for a member of guild [g]. *)
Definition is_admin (member_roles : list str) (member : Member) (g : Guild) : bool :=
  if owner_id g =? member_id member then true
  else if administrator member then true
  else if manage_guild member then true
  else existsb (fun role => bool_decide (role ∈ ADMIN_ROLES)) member_roles.

Definition check_admin_permissions (interaction : Interaction) : bool :=
  match guild interaction with
  | Some g =>
      if owner_id g =? user interaction then true
      else
        match members g !! user interaction with
        | Some member => is_admin (roles member) member g
        | None => false
        end
  | None => false
  end.

Definition set_stat (w : World) (db : Store) (interaction : Interaction)
    (joueur : Z) (statistique : str) (valeur : Z) : Reply * Store :=
  if negb (check_admin_permissions interaction) then (PermissionRefusee, db)
  else
    match get_profile db joueur with
    | None => (ProfilIntrouvable, db)
    | Some profile =>
        with_config_int (py "max_stat_value") db (fun max_stat_value =>
        if (valeur <? 0) || (valeur >? max_stat_value)
        then (ValeurInvalide max_stat_value, db)
        else
          match stats profile !! statistique with
          | None => (Raised (KeyError statistique), db)
          | Some old_value =>
              let profile := set_stats profile (<[statistique := valeur]> (stats profile)) in
              let profile := set_updated_at profile (now w) in
              match save_profile w db profile with
              | (true, db') =>
                  (StatistiqueModifiee statistique old_value valeur,
                   log_action w db' joueur (py "STAT_CHANGED")
                     (statistique ++ py ": " ++ str_of_int old_value ++ py " → "
                        ++ str_of_int valeur)
                     (user interaction))
              | (false, db') => (ErreurDeSauvegarde, db')
              end
          end)
    end.

(** The confirmation view of [/resetplayer]: it keeps the profile that the
    command read, the target and the administrator. *)
Record ResetConfirmView := {
  view_profile : PlayerProfile;
  view_joueur : Z;
  view_user_id : Z
}.

Definition reset_player (db : Store) (interaction : Interaction) (joueur : Z)
    : Reply * option ResetConfirmView :=
  if negb (check_admin_permissions interaction) then (PermissionRefusee, None)
  else
    match get_profile db joueur with
    | None => (ProfilIntrouvable, None)
    | Some profile =>
        (ConfirmationDeReinitialisation,
         Some {| view_profile := profile; view_joueur := joueur;
                 view_user_id := user interaction |})
    end.

(** The button "Confirmer". [BOT_CONFIG["base_stats"]] is read first. *)
Definition confirm (w : World) (db : Store) (view : ResetConfirmView)
    : Reply * Store :=
  let profile := view_profile view in
  match dict_get BOT_CONFIG (py "base_stats") with
  | None => (Raised (KeyError (py "base_stats")), db)
  | Some (CDict base_stats) =>
      match dict_get BOT_CONFIG (py "archetype_bonuses") with
      | None => (Raised (KeyError (py "archetype_bonuses")), db)
      | Some (CDicts all_bonuses) =>
          let archetype_bonuses := default [] (dict_get all_bonuses (archetype profile)) in
          let base_stats :=
            map (fun '(stat, v) => (stat, v + default 0 (dict_get archetype_bonuses stat)))
                base_stats in
          let profile := set_stats profile (list_to_map base_stats) in
          let profile := set_available_points profile 0 in
          let profile := set_updated_at profile (now w) in
          match save_profile w db profile with
          | (true, db') =>
              (JoueurReinitialise,
               log_action w db' (view_joueur view) (py "PLAYER_RESET")
                 (py "Player stats reset by admin") (view_user_id view))
          | (false, db') => (ErreurDeReinitialisation, db')
          end
      | Some _ => (Raised AttributeError, db)
      end
  | Some _ => (Raised AttributeError, db)
  end.

End AdminCommands.

(** ** utils.py: [get_position_from_stats] *)

Module Utils.

(** Python floats are binary64; [float(n)] and [a / b] on integers, which
    CPython computes as the binary64 quotient of the two converted
    operands when both are below 2^53 in absolute value. *)
Definition float_of_int (n : Z) : spec_float := binary_normalize prec emax n 0 false.

Definition truediv (a b : Z) : spec_float :=
  SFdiv prec emax (float_of_int a) (float_of_int b).

(** [max(iterable, key=...)]: the first item is the candidate, and a later
    item replaces it when its key is greater. [None] is the ValueError of
    an empty iterable. *)
Section Max.
Context {A K : Type} (lt : K -> K -> bool) (key : A -> K).

Fixpoint max_from (best : A) (l : list A) : A :=
  match l with
  | [] => best
  | x :: l' => if lt (key best) (key x) then max_from x l' else max_from best l'
  end.

Definition py_max (l : list A) : option A :=
  match l with
  | [] => None
  | x :: l' => Some (max_from x l')
  end.
End Max.

Definition getitem (d : gmap str Z) (k : str) : Exn + Z :=
  match d !! k with
  | Some v => inr v
  | None => inl (KeyError k)
  end.

Notation "'let!' x ':=' e 'in' k" :=
  (match e with inr x => k | inl err => inl err end)
  (at level 10, x name, e at level 100, k at level 200, only parsing).

Definition get_position_from_stats (stats : gmap str Z) : Exn + str :=
  let! mb := getitem stats Manip_Ballon in
  let! ag := getitem stats Agilite in
  let! vi := getitem stats Vitesse in
  let point_guard_score := truediv (mb + ag + vi) 3 in
  let! pr := getitem stats Precision in
  let! de := getitem stats Defense in
  let shooting_guard_score := truediv (pr + de + vi) 3 in
  let small_forward_score := truediv (ag + pr + de) 3 in
  let! fo := getitem stats Force_Physique in
  let! dt := getitem stats Detente in
  let power_forward_score := truediv (fo + dt + de) 3 in
  let! en := getitem stats Endurance in
  let center_score := truediv (fo + dt + en) 3 in
  let positions :=
    [ (Meneur, point_guard_score);
      (Arriere, shooting_guard_score);
      (Ailier, small_forward_score);
      (Ailier_Fort, power_forward_score);
      (Pivot, center_score) ] in
  match py_max (SFltb) (fun x => default S754_nan (dict_get positions x))
               (dict_keys positions) with
  | Some name => inr name
  | None => inl ValueError
  end.

End Utils.

(** ** The specification's own wording of two functions

    These two definitions follow the text of the specification, not the
    code; the theorems below compare them with [validate_stat_name] and
    [Utils.get_position_from_stats]. *)

Module Spec.

(** "case-insensitive exact match, then abbreviation match, then
    case-insensitive substring match, in that priority order — first match
    wins" *)
Definition resolve_stat_name (token : str) : option str :=
  match find (fun name => bool_decide (lower token = lower name))
             (dict_keys STAT_EMOJIS) with
  | Some name => Some name
  | None =>
      match find (fun '(_, abbrev) => bool_decide (upper token = abbrev))
                 STAT_ABBREVIATIONS with
      | Some (name, _) => Some name
      | None =>
          find (fun name => contains (lower name) (lower token))
               (dict_keys STAT_EMOJIS)
      end
  end.

(** "five position scores as unweighted 3-stat averages" *)
Definition mean3 (a b c : Z) : Q := (a + b + c) # 3.

Definition position_scores (st : gmap str Z) : list (str * Q) :=
  let g k := default 0 (st !! k) in
  [ (Meneur, mean3 (g Manip_Ballon) (g Agilite) (g Vitesse));
    (Arriere, mean3 (g Precision) (g Defense) (g Vitesse));
    (Ailier, mean3 (g Agilite) (g Precision) (g Defense));
    (Ailier_Fort, mean3 (g Force_Physique) (g Detente) (g Defense));
    (Pivot, mean3 (g Force_Physique) (g Detente) (g Endurance)) ].

End Spec.

(** ** Sample data for the concrete statements *)

Module Sample.

Definition world : World := {| now := 1000; disk_ok := true |}.

Definition empty_store : Store := {| player_profiles := ∅; action_logs := [] |}.

Definition pivot_member : Member :=
  {| member_id := 7; display_name := py "Rudy";
     roles := [py "🏗️ Pivot"]; administrator := false; manage_guild := false |}.

Definition coach : Member :=
  {| member_id := 1; display_name := py "Coach K";
     roles := [py "Coach"]; administrator := false; manage_guild := false |}.

Definition the_guild : Guild :=
  {| owner_id := 99; members := <[7 := pivot_member]> (<[1 := coach]> ∅) |}.

Definition from_pivot : Interaction :=
  {| user := 7; user_display_name := py "Rudy"; guild := Some the_guild |}.

Definition from_coach : Interaction :=
  {| user := 1; user_display_name := py "Coach K"; guild := Some the_guild |}.

(** A profile as [/create] stores it, with a balance of [points] and
    [Vitesse] at [vitesse]. *)
Definition profile (points vitesse : Z) : PlayerProfile :=
  let p := PlayerProfile.init 7 (py "Rudy") Pivot 0 in
  set_available_points (set_stats p (<[Vitesse := vitesse]> (stats p))) points.

Definition store (points vitesse : Z) : Store :=
  {| player_profiles := <[7 := profile points vitesse]> ∅; action_logs := [] |}.

End Sample.

(** ** Vocabulary of the statements *)

(** The profile after [points] were moved from the balance to [stat], which
    stood at [old], at time [t]. *)
Definition spend (prof : PlayerProfile) (stat : str) (old points t : Z) : PlayerProfile :=
  set_updated_at
    (set_available_points
       (set_stats prof (<[stat := old + points]> (stats prof)))
       (available_points prof - points))
    t.

(** Conservation: the stat gained exactly what the balance lost, and no
    other stat moved. *)
Definition allocated (before after : PlayerProfile) (stat : str) (points : Z) : Prop :=
  exists old,
    stats before !! stat = Some old
    /\ stats after = <[stat := old + points]> (stats before)
    /\ available_points after = available_points before - points.

(** A capital letter other than S: the letters of the abbreviations. *)
Definition capital_not_S (c : N) : Prop := (65 <= c <= 90)%N /\ c <> 83%N.

(** The rank of a non-negative finite binary64 number among them: the
    exponent, then the mantissa. *)
Definition ordinal (f : spec_float) : Z :=
  match f with
  | S754_zero _ => 0
  | S754_finite false m e => (e + 1075) * 9007199254740992 + Zpos m
  | _ => -1
  end.

(** Zero, or positive with a mantissa of at most 53 bits. *)
Definition nonneg_finite (f : spec_float) : bool :=
  match f with
  | S754_zero _ => true
  | S754_finite false m e => (Zpos m <? 9007199254740992) && (-1075 <=? e)
  | _ => false
  end.


(** ** The rest of config.py, models.py and utils.py *)

(** Exceptions of float arithmetic. *)
Inductive ArithError :=
| ZeroDivisionError
| OverflowError
| NanError.

Module Config.

Definition COLOR_MAPPING : list (str * Z) :=
  [ (py "rouge", 16711680); (py "red", 16711680);
    (py "vert", 65280); (py "green", 65280);
    (py "bleu", 255); (py "blue", 255);
    (py "violet", 9055202); (py "purple", 9055202);
    (py "orange", 16739125);
    (py "jaune", 16776960); (py "yellow", 16776960);
    (py "rose", 16738740); (py "pink", 16738740);
    (py "noir", 0); (py "black", 0);
    (py "blanc", 16777215); (py "white", 16777215);
    (py "cyan", 65535);
    (py "magenta", 16711935);
    (py "basketball", 16739125) ].

(** [BOT_CONFIG[key]], an integer. *)
Definition config_int (key : str) : Exn + Z :=
  match dict_get BOT_CONFIG key with
  | Some (CInt n) => inr n
  | Some _ => inl TypeError
  | None => inl (KeyError key)
  end.

(** [COLOR_MAPPING.get(color_name.lower(), BOT_CONFIG["embed_color"])] *)
Definition get_color_from_name (color_name : str) : Exn + Z :=
  match config_int (py "embed_color") with
  | inr dflt => inr (default dflt (dict_get COLOR_MAPPING (lower color_name)))
  | inl e => inl e
  end.

(** [int(x)] of a float: truncation towards zero. *)
Definition int_of_float (f : spec_float) : ArithError + Z :=
  match f with
  | S754_zero _ => inr 0
  | S754_finite s m e =>
      let a := match e with
               | Z0 => Zpos m
               | Zpos p => Zpos m * 2 ^ Zpos p
               | Zneg p => Zpos m / 2 ^ Zpos p
               end in
      inr (if s then - a else a)
  | S754_infinity _ => inl OverflowError
  | S754_nan => inl NanError
  end.

(** [s * n] on strings; nothing for [n <= 0]. *)
Definition str_mul (s : str) (n : Z) : str := concat (replicate (Z.to_nat n) s).

(** [get_stat_bar(value, max_value)]; the callers leave [max_value] at its
    default, 1000. *)
Definition get_stat_bar (value max_value : Z) : ArithError + str :=
  if max_value =? 0 then inl ZeroDivisionError
  else
    match int_of_float (SFmul prec emax (Utils.truediv value max_value)
                                        (Utils.float_of_int 10)) with
    | inl e => inl e
    | inr filled =>
        let empty := 10 - filled in
        inr (str_mul (py "█") filled ++ str_mul (py "░") empty)
    end.

End Config.

Module Database.

(** [DatabaseManager.delete_profile]: [True] when a row was deleted;
    [False] and no change when sqlite raises. *)
Definition delete_profile (w : World) (db : Store) (uid : Z) : bool * Store :=
  if disk_ok w then
    (bool_decide (is_Some (player_profiles db !! uid)),
     {| player_profiles := delete uid (player_profiles db);
        action_logs := action_logs db |})
  else (false, db).

End Database.

Module UtilsMore.

(** [format_stat_value(value, max_value)]; [max_value] defaults to 100. *)
Definition format_stat_value (value max_value : Z) : ArithError + str :=
  if max_value =? 0 then inl ZeroDivisionError
  else
    let percentage :=
      SFmul prec emax (Utils.truediv value max_value) (Utils.float_of_int 100) in
    let shown := py "**" ++ str_of_int value ++ py "** " in
    if SFleb (Utils.float_of_int 90) percentage then inr (shown ++ py "🔥")
    else if SFleb (Utils.float_of_int 75) percentage then inr (shown ++ py "⭐")
    else if SFleb (Utils.float_of_int 60) percentage then inr (shown ++ py "✅")
    else if SFleb (Utils.float_of_int 40) percentage then inr (shown ++ py "⚠️")
    else inr (shown ++ py "❌").

(** [validate_points_distribution(stats, available_points, max_stat)];
    [stats] is the dictionary in its iteration order. *)
Definition validate_points_distribution (stats : list (str * Z))
    (available_points max_stat : Z) : bool * list str :=
  let errors :=
    flat_map (fun '(stat_name, value) =>
                if value >? max_stat
                then [stat_name ++ py " ne peut pas dépasser " ++ str_of_int max_stat]
                else [])
             stats in
  let base_total := 50 * Z.of_nat (length stats) in
  let current_total := fold_left (fun acc '(_, v) => acc + v) stats 0 in
  let points_used := current_total - base_total in
  let errors :=
    if points_used >? available_points
    then errors ++ [py "Vous utilisez " ++ str_of_int points_used
                      ++ py " points mais n'en avez que " ++ str_of_int available_points]
    else errors in
  (bool_decide (length errors = 0%nat), errors).

Record Recommendation := {
  primary : list str;
  secondary : list str;
  avoid : list str
}.

Definition recommendations : list (str * Recommendation) :=
  [ (Meneur,
     {| primary := [Manip_Ballon; Agilite; Vitesse];
        secondary := [Precision; Endurance];
        avoid := [Force_Physique] |});
    (Arriere,
     {| primary := [Precision; Defense; Vitesse];
        secondary := [Agilite; Manip_Ballon];
        avoid := [Force_Physique] |});
    (Ailier,
     {| primary := [Agilite; Precision; Defense];
        secondary := [Vitesse; Manip_Ballon];
        avoid := [] |});
    (Ailier_Fort,
     {| primary := [Force_Physique; Detente; Defense];
        secondary := [Endurance; Precision];
        avoid := [Vitesse; Agilite] |});
    (Pivot,
     {| primary := [Force_Physique; Detente; Defense];
        secondary := [Endurance];
        avoid := [Vitesse; Agilite; Manip_Ballon] |});
    (Generaliste,
     {| primary := [];
        secondary := [Force_Physique; Precision; Manip_Ballon; Agilite; Detente;
                      Defense; Vitesse; Endurance];
        avoid := [] |}) ].

(** [recommendations.get(archetype, recommendations["Généraliste"])] *)
Definition get_stat_recommendations (archetype : str) : Exn + Recommendation :=
  match dict_get recommendations Generaliste with
  | None => inl (KeyError Generaliste)
  | Some dflt => inr (default dflt (dict_get recommendations archetype))
  end.

End UtilsMore.


(** ** The other handlers of the three command files *)

(** What a handler of this part sends: an embed that the handlers above
    send too, or one of its own. *)
Inductive Message :=
| Common (r : Reply)
| PointsAjoutesAdmin (old_points new_points points : Z)
| ParametresManquants
| CaracteristiquesModifiees (changes : list str)
| ConfirmationDeSuppression
| ProfilSupprime
| ErreurDeSuppression
| SuppressionAnnulee
| ReinitialisationAnnulee
| ProfilMisAJour (field_name : str)
| AgeInvalide
| CouleursDisponibles
| CouleurInconnue (color_name : str)
| CouleurChangee (color_name : str) (new_color : Z)
| AucunProfil
| Classement (rows : list (str * Z)) (players : nat).

Definition set_height (p : PlayerProfile) (n : Z) : PlayerProfile :=
  {| user_id := user_id p; username := username p; archetype := archetype p;
     stats := stats p; available_points := available_points p;
     character_name := character_name p; first_name := first_name p;
     age := age p; height := n; weight := weight p;
     profile_image := profile_image p; embed_color := embed_color p;
     created_at := created_at p; updated_at := updated_at p |}.

Definition set_weight (p : PlayerProfile) (n : Z) : PlayerProfile :=
  {| user_id := user_id p; username := username p; archetype := archetype p;
     stats := stats p; available_points := available_points p;
     character_name := character_name p; first_name := first_name p;
     age := age p; height := height p; weight := n;
     profile_image := profile_image p; embed_color := embed_color p;
     created_at := created_at p; updated_at := updated_at p |}.

Definition set_character_name (p : PlayerProfile) (s : str) : PlayerProfile :=
  {| user_id := user_id p; username := username p; archetype := archetype p;
     stats := stats p; available_points := available_points p;
     character_name := s; first_name := first_name p;
     age := age p; height := height p; weight := weight p;
     profile_image := profile_image p; embed_color := embed_color p;
     created_at := created_at p; updated_at := updated_at p |}.

Definition set_first_name (p : PlayerProfile) (s : str) : PlayerProfile :=
  {| user_id := user_id p; username := username p; archetype := archetype p;
     stats := stats p; available_points := available_points p;
     character_name := character_name p; first_name := s;
     age := age p; height := height p; weight := weight p;
     profile_image := profile_image p; embed_color := embed_color p;
     created_at := created_at p; updated_at := updated_at p |}.

Definition set_age (p : PlayerProfile) (n : Z) : PlayerProfile :=
  {| user_id := user_id p; username := username p; archetype := archetype p;
     stats := stats p; available_points := available_points p;
     character_name := character_name p; first_name := first_name p;
     age := n; height := height p; weight := weight p;
     profile_image := profile_image p; embed_color := embed_color p;
     created_at := created_at p; updated_at := updated_at p |}.

Definition set_profile_image (p : PlayerProfile) (s : str) : PlayerProfile :=
  {| user_id := user_id p; username := username p; archetype := archetype p;
     stats := stats p; available_points := available_points p;
     character_name := character_name p; first_name := first_name p;
     age := age p; height := height p; weight := weight p;
     profile_image := s; embed_color := embed_color p;
     created_at := created_at p; updated_at := updated_at p |}.

Definition set_embed_color (p : PlayerProfile) (c : Z) : PlayerProfile :=
  {| user_id := user_id p; username := username p; archetype := archetype p;
     stats := stats p; available_points := available_points p;
     character_name := character_name p; first_name := first_name p;
     age := age p; height := height p; weight := weight p;
     profile_image := profile_image p; embed_color := c;
     created_at := created_at p; updated_at := updated_at p |}.

(** *** admin_commands.py: [/addpoints], [/setphysical], [/deleteprofile] *)

Module AdminCog.

Definition add_points (w : World) (db : Store) (interaction : Interaction)
    (joueur : Z) (points : Z) : Message * Store :=
  if negb (AdminCommands.check_admin_permissions interaction)
  then (Common PermissionRefusee, db)
  else
    match get_profile db joueur with
    | None => (Common ProfilIntrouvable, db)
    | Some profile =>
        if points <=? 0 then (Common PointsInvalides, db)
        else
          let old_points := available_points profile in
          let profile := set_available_points profile (available_points profile + points) in
          let profile := set_updated_at profile (now w) in
          match save_profile w db profile with
          | (true, db') =>
              (PointsAjoutesAdmin old_points (available_points profile) points,
               log_action w db' joueur (py "POINTS_ADDED")
                 (str_of_int points ++ py " points added by admin") (user interaction))
          | (false, db') => (Common ErreurDeSauvegarde, db')
          end
    end.

Definition set_physical (w : World) (db : Store) (interaction : Interaction)
    (joueur : Z) (taille poids : Z) : Message * Store :=
  if negb (AdminCommands.check_admin_permissions interaction)
  then (Common PermissionRefusee, db)
  else
    match get_profile db joueur with
    | None => (Common ProfilIntrouvable, db)
    | Some profile =>
        if (taille =? 0) && (poids =? 0) then (ParametresManquants, db)
        else
          let '(profile, changes) :=
            if negb (taille =? 0) && (taille >? 0)
            then (set_height profile taille,
                  [py "**Taille** : " ++ str_of_int taille ++ py " cm"])
            else (profile, []) in
          let '(profile, changes) :=
            if negb (poids =? 0) && (poids >? 0)
            then (set_weight profile poids,
                  changes ++ [py "**Poids** : " ++ str_of_int poids ++ py " kg"])
            else (profile, changes) in
          let profile := set_updated_at profile (now w) in
          match save_profile w db profile with
          | (true, db') =>
              (CaracteristiquesModifiees changes,
               log_action w db' joueur (py "PHYSICAL_UPDATED")
                 (py "Height/Weight updated by admin") (user interaction))
          | (false, db') => (Common ErreurDeSauvegarde, db')
          end
    end.

(** The confirmation view of [/deleteprofile] keeps the target and the
    administrator. *)
Record ConfirmView := {
  view_joueur : Z;
  view_user_id : Z
}.

Definition delete_profile (db : Store) (interaction : Interaction) (joueur : Z)
    : Message * option ConfirmView :=
  if negb (AdminCommands.check_admin_permissions interaction)
  then (Common PermissionRefusee, None)
  else
    match get_profile db joueur with
    | None => (Common ProfilIntrouvable, None)
    | Some _ =>
        (ConfirmationDeSuppression,
         Some {| view_joueur := joueur; view_user_id := user interaction |})
    end.

(** The buttons "Confirmer" and "Annuler" of that view. *)
Definition confirm (w : World) (db : Store) (view : ConfirmView) : Message * Store :=
  match Database.delete_profile w db (view_joueur view) with
  | (true, db') =>
      (ProfilSupprime,
       log_action w db' (view_joueur view) (py "PROFILE_DELETED")
         (py "Profile deleted by admin") (view_user_id view))
  | (false, db') => (ErreurDeSuppression, db')
  end.

Definition cancel (db : Store) (view : ConfirmView) : Message * Store :=
  (SuppressionAnnulee, db).

(** The button "Annuler" of the view of [/resetplayer]. *)
Definition reset_cancel (db : Store) (view : AdminCommands.ResetConfirmView)
    : Message * Store :=
  (ReinitialisationAnnulee, db).

End AdminCog.

(** *** slash_commands.py: [/customize], [/color], [/leaderboard] *)

(** [list.sort(key=..., reverse=True)]: the stable sort by decreasing key,
    written as an insertion sort: an item goes before the first item whose
    key is not greater than its own. *)
Section SortReverse.
Context {A : Type} (key : A -> Z).

Fixpoint insert_reverse (x : A) (l : list A) : list A :=
  match l with
  | [] => [x]
  | y :: l' => if key x <? key y then y :: insert_reverse x l' else x :: l
  end.

Definition sort_reverse (l : list A) : list A := foldr insert_reverse [] l.
End SortReverse.

Section Customize.
(** [int(valeur)]: the parsed integer, or [None] for ValueError. *)
Variable py_int : str -> option Z.

Definition customize_profile (w : World) (db : Store) (interaction : Interaction)
    (champ valeur : str) : Message * Store :=
  match get_profile db (user interaction) with
  | None => (Common ProfilIntrouvable, db)
  | Some profile =>
      let changed :=
        if bool_decide (champ = py "nom")
        then Some (set_character_name profile valeur, py "nom")
        else if bool_decide (champ = py "prénom")
        then Some (set_first_name profile valeur, py "prénom")
        else if bool_decide (champ = py "âge")
        then match py_int valeur with
             | Some n => Some (set_age profile n, py "âge")
             | None => None
             end
        else if bool_decide (champ = py "image")
        then Some (set_profile_image profile valeur, py "image")
        else Some (profile, py "champ") in
      match changed with
      | None => (AgeInvalide, db)
      | Some (profile, field_name) =>
          let profile := set_updated_at profile (now w) in
          match save_profile w db profile with
          | (true, db') =>
              (ProfilMisAJour field_name,
               log_action w db' (user interaction) (py "PROFILE_CUSTOMIZED")
                 (field_name ++ py " updated") 0)
          | (false, db') => (Common ErreurDeSauvegarde, db')
          end
      end
  end.
End Customize.

Module BasketballCog.

Definition set_color (w : World) (db : Store) (interaction : Interaction)
    (couleur : str) : Message * Store :=
  match get_profile db (user interaction) with
  | None => (Common ProfilIntrouvable, db)
  | Some profile =>
      match Config.get_color_from_name couleur with
      | inl e => (Common (Raised e), db)
      | inr new_color =>
          let profile := set_embed_color profile new_color in
          let profile := set_updated_at profile (now w) in
          match save_profile w db profile with
          | (true, db') =>
              (CouleurChangee couleur new_color,
               log_action w db' (user interaction) (py "COLOR_CHANGED")
                 (py "Color changed to " ++ couleur) 0)
          | (false, db') => (Common ErreurDeSauvegarde, db')
          end
      end
  end.

(** The key of every profile, or the first KeyError in list order. *)
Fixpoint stat_keys (profiles : list PlayerProfile) (statistique : str)
    : Exn + list (PlayerProfile * Z) :=
  match profiles with
  | [] => inr []
  | p :: rest =>
      match stats p !! statistique with
      | None => inl (KeyError statistique)
      | Some v =>
          match stat_keys rest statistique with
          | inl e => inl e
          | inr l => inr ((p, v) :: l)
          end
      end
  end.

(** [/leaderboard], from the list [profiles] that [get_all_profiles]
    returned: the ten first rows of the list sorted by decreasing stat, or by
    decreasing total without a stat, and the number of players. *)
Definition leaderboard (profiles : list PlayerProfile) (statistique : option str)
    : Message :=
  match profiles with
  | [] => AucunProfil
  | _ :: _ =>
      match statistique with
      | Some ((_ :: _) as statistique) =>
          match stat_keys profiles statistique with
          | inl e => Common (Raised e)
          | inr keyed =>
              Classement
                (map (fun pv => (username pv.1, pv.2)) (take 10 (sort_reverse snd keyed)))
                (length profiles)
          end
      | _ =>
          Classement
            (map (fun p => (username p, PlayerProfile.get_total_stats p))
                 (take 10 (sort_reverse PlayerProfile.get_total_stats profiles)))
            (length profiles)
      end
  end.

End BasketballCog.

(** *** commands_old.py: [!color] *)

Module PrefixCommands.

Definition set_embed_color (w : World) (db : Store) (author : Member)
    (color_name : str) : Message * Store :=
  match get_profile db (member_id author) with
  | None => (Common ProfilIntrouvable, db)
  | Some profile =>
      match color_name with
      | [] => (CouleursDisponibles, db)
      | _ :: _ =>
          match Config.get_color_from_name color_name with
          | inl e => (Common (Raised e), db)
          | inr new_color =>
              match Config.config_int (py "embed_color") with
              | inl e => (Common (Raised e), db)
              | inr embed_default =>
                  if (new_color =? embed_default)
                     && negb (dict_mem Config.COLOR_MAPPING (lower color_name))
                  then (CouleurInconnue color_name, db)
                  else
                    let profile := set_embed_color profile new_color in
                    let profile := set_updated_at profile (now w) in
                    match save_profile w db profile with
                    | (true, db') =>
                        (CouleurChangee color_name new_color,
                         log_action w db' (member_id author) (py "COLOR_CHANGED")
                           (py "Color changed to " ++ color_name) 0)
                    | (false, db') => (Common ErreurDeSauvegarde, db')
                    end
              end
          end
      end
  end.

End PrefixCommands.


(** ** The handlers as one transition system *)

(** What reaches the store: the commands that write, and the buttons of the
    two confirmation views. *)
Inductive Command :=
| OldCreate (author : Member)
| OldAdd (author : Member) (stat_name : str) (points : Z)
| OldColor (author : Member) (color_name : str)
| SlashCreate (i : Interaction)
| SlashAddStat (i : Interaction) (statistique : str) (points : Z)
| SlashCustomize (i : Interaction) (champ valeur : str)
| SlashColor (i : Interaction) (couleur : str)
| AdminAddPoints (i : Interaction) (joueur points : Z)
| AdminSetStat (i : Interaction) (joueur : Z) (statistique : str) (valeur : Z)
| AdminSetPhysical (i : Interaction) (joueur taille poids : Z)
| ConfirmDelete (view : AdminCog.ConfirmView)
| CancelDelete (view : AdminCog.ConfirmView)
| ConfirmReset (view : AdminCommands.ResetConfirmView)
| CancelReset (view : AdminCommands.ResetConfirmView).

(** The argument that a command hands to [str.lower] or [str.upper]. *)
Definition case_mapped (c : Command) : str :=
  match c with
  | OldAdd _ stat_name _ => stat_name
  | OldColor _ color_name => color_name
  | SlashColor _ couleur => couleur
  | _ => []
  end.

Section Run.
Variable py_int : str -> option Z.

Definition run (w : World) (db : Store) (c : Command) : Store :=
  match c with
  | OldCreate author => (CommandsOld.create_profile w db author).2
  | OldAdd author stat_name points =>
      (CommandsOld.add_stat_points w db author stat_name points).2
  | OldColor author color_name => (PrefixCommands.set_embed_color w db author color_name).2
  | SlashCreate i => (SlashCommands.create_profile w db i).2
  | SlashAddStat i statistique points => (SlashCommands.add_stat w db i statistique points).2
  | SlashCustomize i champ valeur => (customize_profile py_int w db i champ valeur).2
  | SlashColor i couleur => (BasketballCog.set_color w db i couleur).2
  | AdminAddPoints i joueur points => (AdminCog.add_points w db i joueur points).2
  | AdminSetStat i joueur statistique valeur =>
      (AdminCommands.set_stat w db i joueur statistique valeur).2
  | AdminSetPhysical i joueur taille poids =>
      (AdminCog.set_physical w db i joueur taille poids).2
  | ConfirmDelete view => (AdminCog.confirm w db view).2
  | CancelDelete view => (AdminCog.cancel db view).2
  | ConfirmReset view => (AdminCommands.confirm w db view).2
  | CancelReset view => (AdminCog.reset_cancel db view).2
  end.

(** A history: each command with the clock and the disk it met. *)
Definition run_all (db : Store) (history : list (World * Command)) : Store :=
  fold_left (fun db wc => run wc.1 db wc.2) history db.
End Run.

(** The bounds of the data model. *)
Definition profile_ok (p : PlayerProfile) : Prop :=
  (forall k, is_Some (stats p !! k) <-> In k (dict_keys STAT_EMOJIS))
  /\ (forall k v, stats p !! k = Some v -> 0 <= v <= 1000)
  /\ 0 <= available_points p
  /\ 0 <= height p
  /\ 0 <= weight p
  /\ 0 <= embed_color p <= 16777215
  /\ dict_mem ARCHETYPES (archetype p) = true.

Definition store_ok (db : Store) : Prop :=
  forall uid p, get_profile db uid = Some p -> user_id p = uid /\ profile_ok p.

(** A run of calls to [PlayerProfile.add_stat_points] that all return
    [True]; [None] when one returns [False]. *)
Fixpoint add_all (self : PlayerProfile) (requests : list (str * Z)) (t : Z)
    : option PlayerProfile :=
  match requests with
  | [] => Some self
  | (stat, points) :: rest =>
      match PlayerProfile.add_stat_points self stat points t with
      | (true, self') => add_all self' rest t
      | (false, _) => None
      end
  end.

Definition sum_points (requests : list (str * Z)) : Z :=
  fold_right (fun r acc => r.2 + acc) 0 requests.

(** * Properties *)

Lemma max_stat_value_is db k : with_config_int (py "max_stat_value") db k = k 1000.
Proof. reflexivity. Qed.

Lemma max_points_per_add_is db k : with_config_int (py "max_points_per_add") db k = k 100.
Proof. reflexivity. Qed.

Lemma spend_allocated prof stat old points t :
  stats prof !! stat = Some old -> allocated prof (spend prof stat old points t) stat points.
Proof. intros H. exists old. auto. Qed.

(** *** The model method [PlayerProfile.add_stat_points] *)

Lemma add_stat_points_eq self stat points t old :
  stats self !! stat = Some old ->
  PlayerProfile.add_stat_points self stat points t =
    if (points <? 0) || (points >? available_points self) then (false, self)
    else if old + points >? 1000 then (false, self)
    else (true, spend self stat old points t).
Proof. intros H. unfold PlayerProfile.add_stat_points. rewrite H. reflexivity. Qed.

Lemma add_stat_points_rejects self stat points t :
  (PlayerProfile.add_stat_points self stat points t).1 = false <->
  (stats self !! stat = None \/ points < 0 \/ available_points self < points
   \/ exists cur, stats self !! stat = Some cur /\ 1000 < cur + points).
Proof.
  unfold PlayerProfile.add_stat_points.
  destruct (stats self !! stat) as [cur|] eqn:E; [|simpl; tauto].
  rewrite !Z.gtb_ltb.
  destruct (Z.ltb_spec points 0); simpl; [tauto|].
  destruct (Z.ltb_spec (available_points self) points); simpl; [tauto|].
  destruct (Z.ltb_spec 1000 (cur + points)); simpl.
  - split; [intros _|reflexivity]. right; right; right. exists cur. auto.
  - split; [discriminate|].
    intros [?|[?|[?|(c & Hc & ?)]]]; try discriminate; try lia.
    injection Hc as <-. lia.
Qed.

(** C10. At the model interface, [add_stat_points] with [points = 0] on a
    stat of the profile returns [True] and leaves every stat and the balance
    as they were (only [updated_at] moves), for a profile within the bounds
    of the data model; and the method returns [False] in exactly four cases:
    a stat name that is not a key of [stats], negative points, points above
    the balance, a result above 1000. *)
Theorem add_stat_points_zero_succeeds
    (self : PlayerProfile) (stat : str) (t cur : Z)
    (Hstat : stats self !! stat = Some cur)
    (Hcur : cur <= 1000)
    (Hbal : 0 <= available_points self) :
  PlayerProfile.add_stat_points self stat 0 t = (true, set_updated_at self t)
  /\ (forall stat' points,
        (PlayerProfile.add_stat_points self stat' points t).1 = false <->
        (stats self !! stat' = None \/ points < 0 \/ available_points self < points
         \/ exists c, stats self !! stat' = Some c /\ 1000 < c + points)).
Proof.
  split; [|intros; apply add_stat_points_rejects].
  rewrite (add_stat_points_eq _ _ _ _ cur Hstat), !Z.gtb_ltb.
  destruct (Z.ltb_spec (available_points self) 0); [lia|].
  destruct (Z.ltb_spec 1000 (cur + 0)); [lia|]. simpl.
  unfold spend, set_updated_at, set_available_points, set_stats; simpl.
  rewrite Z.add_0_r, Z.sub_0_r, (insert_id _ _ _ Hstat). reflexivity.
Qed.

Lemma add_stat_points_zero_succeeds_witness :
  PlayerProfile.add_stat_points (Sample.profile 0 1000) Vitesse 0 5
  = (true, set_updated_at (Sample.profile 0 1000) 5).
Proof.
  apply (add_stat_points_zero_succeeds (Sample.profile 0 1000) Vitesse 5 1000);
    [reflexivity | lia | simpl; lia].
Defined.

(** *** The two allocation handlers, branch by branch *)

Lemma spend_lookup prof stat old points t :
  stats (spend prof stat old points t) !! stat = Some (old + points).
Proof. apply lookup_insert_eq. Qed.

Lemma slash_add_stat_eq w db i stat points prof old :
  get_profile db (user i) = Some prof ->
  stats prof !! stat = Some old ->
  SlashCommands.add_stat w db i stat points =
    if points <=? 0 then (PointsInvalides, db)
    else if points >? available_points prof
    then (PointsInsuffisants (available_points prof), db)
    else if old + points >? 1000
    then (LimiteDeStatAtteinte (1000 - old) old, db)
    else if disk_ok w
    then (StatistiqueAmelioree stat old (old + points) (available_points prof - points),
          log_action w
            {| player_profiles :=
                 <[user_id prof := spend prof stat old points (now w)]> (player_profiles db);
               action_logs := action_logs db |}
            (user i) (py "STAT_ADDED") (stat ++ py ": +" ++ str_of_int points) 0)
    else (ErreurDeSauvegarde, db).
Proof.
  intros Hp Hs. unfold SlashCommands.add_stat. rewrite Hp.
  destruct (points <=? 0); [reflexivity|].
  destruct (points >? available_points prof); [reflexivity|].
  rewrite Hs, max_stat_value_is.
  destruct (old + points >? 1000); [reflexivity|].
  unfold save_profile. destruct (disk_ok w); [|reflexivity].
  unfold spend. cbn [stats set_updated_at set_available_points set_stats].
  rewrite lookup_insert_eq. reflexivity.
Qed.

Lemma dict_mem_keys {V} (d : list (str * V)) k :
  dict_mem d k = true <-> In k (dict_keys d).
Proof.
  unfold dict_mem. induction d as [|[k' v] d IH]; simpl; [split; [discriminate|tauto]|].
  case_bool_decide; subst; [tauto|].
  rewrite IH. split; [tauto|]. intros [->|?]; tauto.
Qed.

(** A resolved name is one of the eight. *)
Lemma validate_stat_name_in token stat :
  validate_stat_name token = Some stat -> In stat (dict_keys STAT_EMOJIS).
Proof.
  unfold validate_stat_name.
  destruct (dict_mem STAT_EMOJIS token) eqn:E.
  - intros [= <-]. apply dict_mem_keys, E.
  - destruct (find _ STAT_ABBREVIATIONS) as [[n a]|] eqn:F.
    + intros [= <-]. apply find_some in F as [F _].
      apply (in_map fst) in F. exact F.
    + intros F'. apply find_some in F' as [F' _]. exact F'.
Qed.

Lemma old_add_stat_points_eq w db author token stat points prof old :
  get_profile db (member_id author) = Some prof ->
  validate_stat_name token = Some stat ->
  stats prof !! stat = Some old ->
  CommandsOld.add_stat_points w db author token points =
    if points <=? 0 then (PointsInvalides, db)
    else if points >? 100 then (TropDePoints 100, db)
    else if points >? available_points prof
    then (PointsInsuffisants (available_points prof), db)
    else if old + points >? 1000
    then (LimiteDeStatAtteinte (1000 - old) old, db)
    else if disk_ok w
    then (PointsAjoutes stat old (old + points) (available_points prof - points),
          log_action w
            {| player_profiles :=
                 <[user_id prof := spend prof stat old points (now w)]> (player_profiles db);
               action_logs := action_logs db |}
            (member_id author) (py "POINTS_ADDED")
            (str_of_int points ++ py " points added to " ++ stat) 0)
    else (ErreurDeSauvegarde, db).
Proof.
  intros Hp Hv Hs. unfold CommandsOld.add_stat_points. rewrite Hp, Hv.
  destruct stat as [|c stat];
    [apply validate_stat_name_in in Hv; simpl in Hv; intuition discriminate|].
  destruct (Z.leb_spec points 0); [reflexivity|].
  rewrite max_points_per_add_is.
  destruct (points >? 100); [reflexivity|].
  destruct (points >? available_points prof) eqn:Ea; [reflexivity|].
  rewrite Hs, max_stat_value_is.
  destruct (old + points >? 1000) eqn:Eo; [reflexivity|].
  rewrite (add_stat_points_eq _ _ _ _ old Hs), Ea, Eo.
  replace (points <? 0) with false by (symmetry; apply Z.ltb_ge; lia).
  cbn [orb]. unfold save_profile. destruct (disk_ok w); [|reflexivity].
  rewrite spend_lookup. reflexivity.
Qed.


Ltac by_cases_on_guards :=
  repeat match goal with
    | |- context [?a <=? ?b] => destruct (Z.leb_spec a b)
    | |- context [?a >? ?b] => rewrite (Z.gtb_ltb a b)
    | |- context [?a <? ?b] => destruct (Z.ltb_spec a b)
    | H : context [?a <=? ?b] |- _ => destruct (Z.leb_spec a b)
    | H : context [?a >? ?b] |- _ => rewrite (Z.gtb_ltb a b) in H
    | H : context [?a <? ?b] |- _ => destruct (Z.ltb_spec a b)
    end.

(** C5. Conservation: when an allocation of [points] succeeds — through the
    model method, [/addstat] or [!add] — the stat has gained exactly
    [points], the balance has lost exactly [points] and no other stat has
    moved; and every amount of the legal range
    [1 <= points <= min(100, available_points, 1000 - old)] does succeed
    (on the two commands, when the write to the store does). *)
Theorem allocation_conserves_points
    (w : World) (db : Store) (i : Interaction) (author : Member)
    (token stat : str) (points old : Z) (prof : PlayerProfile)
    (Hprof : get_profile db (user i) = Some prof)
    (Hkey : user_id prof = user i)
    (Hauthor : member_id author = user i)
    (Htoken : validate_stat_name token = Some stat)
    (Hold : stats prof !! stat = Some old) :
  (forall prof',
      PlayerProfile.add_stat_points prof stat points (now w) = (true, prof') ->
      allocated prof prof' stat points)
  /\ (forall s o n r db',
        SlashCommands.add_stat w db i stat points = (StatistiqueAmelioree s o n r, db') ->
        n - o = points /\ r = available_points prof - points
        /\ exists prof', get_profile db' (user i) = Some prof'
                         /\ allocated prof prof' stat points)
  /\ (forall s o n r db',
        CommandsOld.add_stat_points w db author token points = (PointsAjoutes s o n r, db') ->
        n - o = points /\ r = available_points prof - points
        /\ exists prof', get_profile db' (user i) = Some prof'
                         /\ allocated prof prof' stat points)
  /\ (1 <= points <= Z.min (Z.min 100 (available_points prof)) (1000 - old) ->
      PlayerProfile.add_stat_points prof stat points (now w)
        = (true, spend prof stat old points (now w))
      /\ (disk_ok w = true ->
          (SlashCommands.add_stat w db i stat points).1
            = StatistiqueAmelioree stat old (old + points) (available_points prof - points)
          /\ (CommandsOld.add_stat_points w db author token points).1
            = PointsAjoutes stat old (old + points) (available_points prof - points))).
Proof.
  assert (Hp' : get_profile db (member_id author) = Some prof) by (rewrite Hauthor; exact Hprof).
  rewrite (add_stat_points_eq _ _ _ _ old Hold),
          (slash_add_stat_eq _ _ _ _ _ _ _ Hprof Hold),
          (old_add_stat_points_eq _ _ _ _ _ _ _ _ Hp' Htoken Hold).
  repeat split.
  - intros prof'. by_cases_on_guards; simpl; intros [= <-].
    now apply spend_allocated.
  - revert H. by_cases_on_guards; destruct (disk_ok w); intros [= <- <- <- <- <-]; lia.
  - revert H. by_cases_on_guards; destruct (disk_ok w); intros [= <- <- <- <- <-]; lia.
  - revert H. by_cases_on_guards; destruct (disk_ok w); intros [= <- <- <- <- <-].
    exists (spend prof stat old points (now w)). split; [|now apply spend_allocated].
    unfold get_profile, log_action; simpl. rewrite Hkey. apply lookup_insert_eq.
  - revert H. by_cases_on_guards; destruct (disk_ok w); intros [= <- <- <- <- <-]; lia.
  - revert H. by_cases_on_guards; destruct (disk_ok w); intros [= <- <- <- <- <-]; lia.
  - revert H. by_cases_on_guards; destruct (disk_ok w); intros [= <- <- <- <- <-].
    exists (spend prof stat old points (now w)). split; [|now apply spend_allocated].
    unfold get_profile, log_action; simpl. rewrite Hkey. apply lookup_insert_eq.
  - by_cases_on_guards; simpl; try reflexivity; lia.
  - rewrite H0. by_cases_on_guards; simpl; try reflexivity; lia.
  - rewrite H0. by_cases_on_guards; simpl; try reflexivity; lia.
Qed.

Lemma allocation_conserves_points_witness :
  PlayerProfile.add_stat_points (Sample.profile 200 500) Vitesse 100 1000
    = (true, spend (Sample.profile 200 500) Vitesse 500 100 1000)
  /\ (SlashCommands.add_stat Sample.world (Sample.store 200 500) Sample.from_pivot
        Vitesse 100).1
     = StatistiqueAmelioree Vitesse 500 600 100.
Proof.
  destruct (allocation_conserves_points Sample.world (Sample.store 200 500)
              Sample.from_pivot Sample.pivot_member (py "vit") Vitesse 100 500
              (Sample.profile 200 500) eq_refl eq_refl eq_refl eq_refl eq_refl)
    as (_ & _ & _ & H).
  destruct H as [H1 H2]; [simpl; lia|].
  split; [exact H1|]. apply H2. reflexivity.
Defined.

Lemma old_add_enforces_batch_limit w db author token stat points prof :
  get_profile db (member_id author) = Some prof ->
  validate_stat_name token = Some stat ->
  100 < points ->
  CommandsOld.add_stat_points w db author token points = (TropDePoints 100, db).
Proof.
  intros Hp Hv Hpts. unfold CommandsOld.add_stat_points. rewrite Hp, Hv.
  destruct stat as [|c stat];
    [apply validate_stat_name_in in Hv; simpl in Hv; intuition discriminate|].
  rewrite max_points_per_add_is. by_cases_on_guards; try reflexivity; lia.
Qed.

(** C3. The ceiling of 100 points per call is enforced by [!add] only:
    [/addstat] with 150 points, a balance of 200 and [Vitesse] at 500 moves
    the 150 points, and so does the model method, where [!add] answers
    "Trop de points" and leaves the store as it was. *)
Theorem slash_add_stat_has_no_batch_limit :
  let db := Sample.store 200 500 in
  let result := SlashCommands.add_stat Sample.world db Sample.from_pivot Vitesse 150 in
  result.1 = StatistiqueAmelioree Vitesse 500 650 50
  /\ get_profile result.2 7 = Some (spend (Sample.profile 200 500) Vitesse 500 150 1000)
  /\ (PlayerProfile.add_stat_points (Sample.profile 200 500) Vitesse 150 1000).1 = true
  /\ CommandsOld.add_stat_points Sample.world db Sample.pivot_member Vitesse 150
     = (TropDePoints 100, db).
Proof.
  cbv zeta.
  rewrite (slash_add_stat_eq Sample.world (Sample.store 200 500) Sample.from_pivot
             Vitesse 150 (Sample.profile 200 500) 500 eq_refl eq_refl).
  split; [reflexivity|]. split; [reflexivity|]. split; [reflexivity|].
  apply (old_add_enforces_batch_limit _ _ _ _ Vitesse _ (Sample.profile 200 500));
    [reflexivity | reflexivity | lia].
Qed.

(** C6 as stated does not hold: with a balance of 5 and [Vitesse] at 995,
    ten points would pass the ceiling, and the answer is "Points
    insuffisants", not "Limite de stat atteinte". *)
Lemma ceiling_reply_not_exactly_when_over :
  ~ (forall w db i stat points prof old,
        get_profile db (user i) = Some prof ->
        stats prof !! stat = Some old ->
        (1000 < old + points <->
         exists m c, (SlashCommands.add_stat w db i stat points).1
                     = LimiteDeStatAtteinte m c)).
Proof.
  intros H.
  destruct (H Sample.world (Sample.store 5 995) Sample.from_pivot Vitesse 10
              (Sample.profile 5 995) 995 eq_refl eq_refl) as [H1 _].
  destruct H1 as (m & c & H1); [lia|].
  rewrite (slash_add_stat_eq Sample.world (Sample.store 5 995) Sample.from_pivot
             Vitesse 10 (Sample.profile 5 995) 995 eq_refl eq_refl) in H1.
  discriminate H1.
Qed.

(** C6, amended. Once the earlier checks have passed (the points are
    positive, within the balance and, on [!add], at most 100), the answer is
    "Limite de stat atteinte" exactly when [old + points > 1000]; the store
    is then as it was, and the reply carries [1000 - old]. *)
Theorem ceiling_reply_after_earlier_checks
    (w : World) (db : Store) (i : Interaction) (author : Member)
    (token stat : str) (points old : Z) (prof : PlayerProfile)
    (Hprof : get_profile db (user i) = Some prof)
    (Hauthor : member_id author = user i)
    (Htoken : validate_stat_name token = Some stat)
    (Hold : stats prof !! stat = Some old) :
  (0 < points <= available_points prof -> 1000 < old + points ->
   SlashCommands.add_stat w db i stat points
     = (LimiteDeStatAtteinte (1000 - old) old, db))
  /\ (forall m c,
        (SlashCommands.add_stat w db i stat points).1 = LimiteDeStatAtteinte m c ->
        0 < points <= available_points prof /\ 1000 < old + points
        /\ m = 1000 - old /\ c = old)
  /\ (0 < points <= Z.min 100 (available_points prof) -> 1000 < old + points ->
      CommandsOld.add_stat_points w db author token points
        = (LimiteDeStatAtteinte (1000 - old) old, db))
  /\ (forall m c,
        (CommandsOld.add_stat_points w db author token points).1
          = LimiteDeStatAtteinte m c ->
        0 < points <= Z.min 100 (available_points prof) /\ 1000 < old + points
        /\ m = 1000 - old /\ c = old).
Proof.
  assert (Hp' : get_profile db (member_id author) = Some prof) by (rewrite Hauthor; exact Hprof).
  rewrite (slash_add_stat_eq _ _ _ _ _ _ _ Hprof Hold),
          (old_add_stat_points_eq _ _ _ _ _ _ _ _ Hp' Htoken Hold).
  split; [|split; [|split]].
  - intros ? ?. by_cases_on_guards; try reflexivity; lia.
  - intros m c. by_cases_on_guards; destruct (disk_ok w); simpl; intros [= <- <-]; lia.
  - intros ? ?. by_cases_on_guards; try reflexivity; lia.
  - intros m c. by_cases_on_guards; destruct (disk_ok w); simpl; intros [= <- <-]; lia.
Qed.

Lemma ceiling_reply_after_earlier_checks_witness :
  SlashCommands.add_stat Sample.world (Sample.store 50 995) Sample.from_pivot Vitesse 10
    = (LimiteDeStatAtteinte (1000 - 995) 995, Sample.store 50 995).
Proof.
  destruct (ceiling_reply_after_earlier_checks Sample.world (Sample.store 50 995)
              Sample.from_pivot Sample.pivot_member (py "VIT") Vitesse 10 995
              (Sample.profile 50 995) eq_refl eq_refl eq_refl eq_refl)
    as (H & _).
  apply H; simpl; lia.
Defined.

(** *** [/setstat] *)

Lemma set_stat_eq w db i joueur stat valeur prof :
  AdminCommands.check_admin_permissions i = true ->
  get_profile db joueur = Some prof ->
  AdminCommands.set_stat w db i joueur stat valeur =
    if (valeur <? 0) || (valeur >? 1000) then (ValeurInvalide 1000, db)
    else
      match stats prof !! stat with
      | None => (Raised (KeyError stat), db)
      | Some old =>
          if disk_ok w
          then (StatistiqueModifiee stat old valeur,
                log_action w
                  {| player_profiles :=
                       <[user_id prof :=
                           set_updated_at (set_stats prof (<[stat := valeur]> (stats prof)))
                                          (now w)]> (player_profiles db);
                     action_logs := action_logs db |}
                  joueur (py "STAT_CHANGED")
                  (stat ++ py ": " ++ str_of_int old ++ py " → " ++ str_of_int valeur)
                  (user i))
          else (ErreurDeSauvegarde, db)
      end.
Proof.
  intros Ha Hp. unfold AdminCommands.set_stat. rewrite Ha, Hp, max_stat_value_is.
  cbn [negb]. destruct ((valeur <? 0) || (valeur >? 1000)); [reflexivity|].
  destruct (stats prof !! stat); [|reflexivity].
  unfold save_profile. destruct (disk_ok w); reflexivity.
Qed.

(** C8. [/setstat], for an administrator and an existing profile, answers
    "Valeur invalide" exactly when the value is below 0 or above 1000, and
    then changes nothing; when it succeeds, the stored profile is the old
    one with the named stat set to the value and [updated_at] refreshed: the
    balance and every other stat are as they were. *)
Theorem set_stat_range_and_frame
    (w : World) (db : Store) (i : Interaction) (joueur : Z)
    (stat : str) (valeur : Z) (prof : PlayerProfile)
    (Hadmin : AdminCommands.check_admin_permissions i = true)
    (Hprof : get_profile db joueur = Some prof)
    (Hkey : user_id prof = joueur) :
  ((exists m, (AdminCommands.set_stat w db i joueur stat valeur).1 = ValeurInvalide m)
   <-> valeur < 0 \/ 1000 < valeur)
  /\ (valeur < 0 \/ 1000 < valeur ->
      AdminCommands.set_stat w db i joueur stat valeur = (ValeurInvalide 1000, db))
  /\ (forall s o n db',
        AdminCommands.set_stat w db i joueur stat valeur = (StatistiqueModifiee s o n, db') ->
        exists prof',
          get_profile db' joueur = Some prof'
          /\ prof' = set_updated_at (set_stats prof (<[stat := valeur]> (stats prof))) (now w)
          /\ stats prof' !! stat = Some valeur
          /\ (forall k, k <> stat -> stats prof' !! k = stats prof !! k)
          /\ available_points prof' = available_points prof)
  /\ (forall old, stats prof !! stat = Some old -> 0 <= valeur <= 1000 ->
      disk_ok w = true ->
      (AdminCommands.set_stat w db i joueur stat valeur).1
        = StatistiqueModifiee stat old valeur).
Proof.
  rewrite (set_stat_eq _ _ _ _ _ _ _ Hadmin Hprof).
  split; [|split; [|split]].
  - by_cases_on_guards; cbn [orb]; try (split; [intros _; lia | intros _; eexists; reflexivity]).
    split; [|lia]. intros [m H1]. revert H1.
    destruct (stats prof !! stat); [destruct (disk_ok w)|]; discriminate.
  - intros ?. by_cases_on_guards; cbn [orb]; try reflexivity; lia.
  - intros s o n db'. by_cases_on_guards; cbn [orb]; try discriminate.
    destruct (stats prof !! stat) as [old|]; [|discriminate].
    destruct (disk_ok w); [|discriminate]. intros [= <- <- <- <-].
    eexists. split; [|split; [reflexivity|]].
    + unfold get_profile, log_action; simpl. rewrite Hkey. apply lookup_insert_eq.
    + cbn [stats set_updated_at set_stats available_points].
      split; [apply lookup_insert_eq|]. split; [|reflexivity].
      intros k Hk. apply lookup_insert_ne. congruence.
  - intros old Ho ? Hd. rewrite Ho, Hd.
    by_cases_on_guards; cbn [orb]; try reflexivity; lia.
Qed.

Lemma set_stat_range_and_frame_witness :
  (AdminCommands.set_stat Sample.world (Sample.store 50 995) Sample.from_coach 7
     Vitesse 1000).1 = StatistiqueModifiee Vitesse 995 1000
  /\ AdminCommands.set_stat Sample.world (Sample.store 50 995) Sample.from_coach 7
       Vitesse 1001 = (ValeurInvalide 1000, Sample.store 50 995).
Proof.
  destruct (set_stat_range_and_frame Sample.world (Sample.store 50 995)
              Sample.from_coach 7 Vitesse 1000 (Sample.profile 50 995)
              eq_refl eq_refl eq_refl) as (_ & _ & _ & H).
  destruct (set_stat_range_and_frame Sample.world (Sample.store 50 995)
              Sample.from_coach 7 Vitesse 1001 (Sample.profile 50 995)
              eq_refl eq_refl eq_refl) as (_ & H' & _).
  split; [apply H; [reflexivity | lia | reflexivity] | apply H'; lia].
Defined.

(** *** Creation *)

Lemma get_archetype_from_roles_nonempty member_roles :
  get_archetype_from_roles member_roles <> [].
Proof.
  induction member_roles as [|role rest IH]; [discriminate|].
  cbn [get_archetype_from_roles].
  destruct (dict_get ROLE_ARCHETYPE_MAPPING role) as [a|] eqn:E; [|exact IH].
  revert E. unfold ROLE_ARCHETYPE_MAPPING. cbn [dict_get].
  repeat (case_bool_decide; [intros [= <-]; discriminate|]). discriminate.
Qed.

Lemma old_create_profile_stores w db author :
  get_profile db (member_id author) = None ->
  disk_ok w = true ->
  get_profile (CommandsOld.create_profile w db author).2 (member_id author)
  = Some (set_available_points
            (PlayerProfile.apply_archetype_bonus
               (PlayerProfile.init (member_id author) (display_name author)
                  (get_archetype_from_roles (roles author)) (now w))
               ARCHETYPES)
            200).
Proof.
  intros Hn Hd. unfold CommandsOld.create_profile, save_profile. rewrite Hn, Hd.
  unfold get_profile, log_action. cbn [snd player_profiles].
  match goal with |- <[user_id ?p := _]> _ !! _ = _ => set (prof := p) end.
  assert (Hk : user_id prof = member_id author).
  { subst prof. unfold PlayerProfile.apply_archetype_bonus.
    destruct (dict_get ARCHETYPES _); reflexivity. }
  rewrite Hk. apply lookup_insert_eq.
Qed.

Lemma slash_create_profile_stores w db i g member :
  get_profile db (user i) = None ->
  guild i = Some g ->
  members g !! user i = Some member ->
  disk_ok w = true ->
  get_profile (SlashCommands.create_profile w db i).2 (user i)
  = Some (PlayerProfile.init (user i) (user_display_name i)
            (get_archetype_from_roles (roles member)) (now w)).
Proof.
  intros Hn Hg Hm Hd. unfold SlashCommands.create_profile, save_profile.
  rewrite Hn, Hg, Hm, Hd.
  pose proof (get_archetype_from_roles_nonempty (roles member)) as Hne.
  destruct (get_archetype_from_roles (roles member)) as [|c a] eqn:E; [congruence|].
  unfold get_profile, log_action. cbn [snd player_profiles].
  apply lookup_insert_eq.
Qed.

(** C7. Creation is refused for a player who has a profile: both [!create]
    and [/create] answer "Profil existant" and return the store as it was,
    so no field of the stored profile is written. In particular a second
    call, after a first one that stored a profile, is refused. *)
Theorem create_refuses_existing_profile
    (w : World) (db : Store) (author : Member) (i : Interaction)
    (prof : PlayerProfile)
    (Hi : user i = member_id author)
    (Hprof : get_profile db (member_id author) = Some prof) :
  CommandsOld.create_profile w db author = (ProfilExistant, db)
  /\ SlashCommands.create_profile w db i = (ProfilExistant, db)
  /\ (forall w0 db0,
        disk_ok w0 = true ->
        let db1 := (CommandsOld.create_profile w0 db0 author).2 in
        CommandsOld.create_profile w db1 author = (ProfilExistant, db1))
  /\ (forall w0 db0 g,
        disk_ok w0 = true -> guild i = Some g -> members g !! user i = Some author ->
        let db1 := (SlashCommands.create_profile w0 db0 i).2 in
        SlashCommands.create_profile w db1 i = (ProfilExistant, db1)).
Proof.
  split; [|split; [|split]].
  - unfold CommandsOld.create_profile. rewrite Hprof. reflexivity.
  - unfold SlashCommands.create_profile. rewrite Hi, Hprof. reflexivity.
  - intros w0 db0 Hd db1. subst db1.
    destruct (get_profile db0 (member_id author)) as [p0|] eqn:E0.
    + unfold CommandsOld.create_profile at 2. rewrite E0. cbn [snd].
      unfold CommandsOld.create_profile. rewrite E0. reflexivity.
    + pose proof (old_create_profile_stores w0 db0 author E0 Hd) as Hs.
      unfold CommandsOld.create_profile at 1. rewrite Hs. reflexivity.
  - intros w0 db0 g Hd Hg Hm db1. subst db1.
    destruct (get_profile db0 (user i)) as [p0|] eqn:E0.
    + unfold SlashCommands.create_profile at 2. rewrite E0. cbn [snd].
      unfold SlashCommands.create_profile. rewrite E0. reflexivity.
    + pose proof (slash_create_profile_stores w0 db0 i g author E0 Hg Hm Hd) as Hs.
      unfold SlashCommands.create_profile at 1. rewrite Hs. reflexivity.
Qed.

Lemma create_refuses_existing_profile_witness :
  CommandsOld.create_profile Sample.world (Sample.store 200 500) Sample.pivot_member
    = (ProfilExistant, Sample.store 200 500)
  /\ SlashCommands.create_profile Sample.world (Sample.store 200 500) Sample.from_pivot
    = (ProfilExistant, Sample.store 200 500).
Proof.
  destruct (create_refuses_existing_profile Sample.world (Sample.store 200 500)
              Sample.pivot_member Sample.from_pivot (Sample.profile 200 500)
              eq_refl eq_refl) as (H1 & H2 & _).
  split; [exact H1 | exact H2].
Defined.

(** C1. [!create] for a member with the role of "Pivot": the bonuses are
    clamped at 100, not at 1000, so the seven stats that carry a bonus are
    stored as 100, "Manip. Ballon" stays at 500, and the total is 1200;
    [/create] applies no bonus at all and stores 500 eight times. *)
Theorem create_pivot_clamps_at_100 :
  let db1 := (CommandsOld.create_profile Sample.world Sample.empty_store
                Sample.pivot_member).2 in
  let db2 := (SlashCommands.create_profile Sample.world Sample.empty_store
                Sample.from_pivot).2 in
  (exists p,
      get_profile db1 7 = Some p
      /\ archetype p = Pivot
      /\ map (fun k => stats p !! k)
           [Force_Physique; Detente; Defense; Endurance; Vitesse; Agilite;
            Precision; Manip_Ballon]
         = [Some 100; Some 100; Some 100; Some 100; Some 100; Some 100;
            Some 100; Some 500]
      /\ PlayerProfile.get_total_stats p = 1200)
  /\ (exists p,
        get_profile db2 7 = Some p
        /\ archetype p = Pivot
        /\ map (fun k => stats p !! k)
             [Force_Physique; Detente; Defense; Endurance; Vitesse; Agilite;
              Precision; Manip_Ballon]
           = [Some 500; Some 500; Some 500; Some 500; Some 500; Some 500;
              Some 500; Some 500]
        /\ PlayerProfile.get_total_stats p = 4000).
Proof.
  cbv zeta. split.
  - pose proof (old_create_profile_stores Sample.world Sample.empty_store
                  Sample.pivot_member eq_refl eq_refl) as H1.
    eexists. split; [exact H1|]. split; [reflexivity|].
    split; vm_compute; reflexivity.
  - pose proof (slash_create_profile_stores Sample.world Sample.empty_store
                  Sample.from_pivot Sample.the_guild Sample.pivot_member
                  eq_refl eq_refl eq_refl eq_refl) as H2.
    eexists. split; [exact H2|]. split; [reflexivity|].
    split; vm_compute; reflexivity.
Qed.

(** C2. The button "Confirmer" of [/resetplayer] reads
    [BOT_CONFIG["base_stats"]], a key that [BOT_CONFIG] does not have (nor
    has it "archetype_bonuses"): it raises KeyError before anything is
    recomputed or written, for every profile. So a profile with [Vitesse]
    at 995 and a balance of 50 keeps both after a confirmed reset. *)
Theorem reset_confirm_raises_key_error :
  (forall (w : World) (db : Store) (view : AdminCommands.ResetConfirmView),
      AdminCommands.confirm w db view = (Raised (KeyError (py "base_stats")), db))
  /\ dict_get BOT_CONFIG (py "base_stats") = None
  /\ dict_get BOT_CONFIG (py "archetype_bonuses") = None
  /\ (let db := Sample.store 50 995 in
      exists view,
        AdminCommands.reset_player db Sample.from_coach 7
          = (ConfirmationDeReinitialisation, Some view)
        /\ AdminCommands.confirm Sample.world db view
           = (Raised (KeyError (py "base_stats")), db)
        /\ (available_points <$> get_profile db 7) = Some 50
        /\ (PlayerProfile.get_total_stats <$> get_profile db 7) = Some 4495).
Proof.
  split; [intros w db view; reflexivity|].
  split; [reflexivity|]. split; [reflexivity|].
  eexists. split; [reflexivity|]. split; [reflexivity|].
  split; vm_compute; reflexivity.
Qed.

(** *** Stat-name resolution *)

Ltac reflect_code_point E :=
  repeat first
    [ rewrite orb_true_iff in E | rewrite andb_true_iff in E
    | rewrite orb_false_iff in E | rewrite andb_false_iff in E
    | rewrite negb_true_iff in E | rewrite negb_false_iff in E
    | rewrite N.leb_le in E | rewrite N.leb_gt in E
    | rewrite N.eqb_eq in E | rewrite N.eqb_neq in E ].

Lemma lower_cp_cases c :
  ((65 <= c <= 90 \/ 192 <= c <= 222 /\ c <> 215) /\ lower_cp c = c + 32)%N
  \/ (~ (65 <= c <= 90 \/ 192 <= c <= 222 /\ c <> 215) /\ lower_cp c = c)%N.
Proof.
  unfold lower_cp.
  destruct ((65 <=? c) && (c <=? 90) || (192 <=? c) && (c <=? 222) && negb (c =? 215))%N
    eqn:E; reflect_code_point E; [left|right]; (split; [lia|reflexivity]).
Qed.

Lemma upper_cp_cases c :
  ((97 <= c <= 122 \/ 224 <= c <= 254 /\ c <> 247) /\ upper_cp c = [c - 32])%N
  \/ (c = 223 /\ upper_cp c = [83; 83])%N
  \/ (c = 181 /\ upper_cp c = [924])%N
  \/ (c = 255 /\ upper_cp c = [376])%N
  \/ (~ (97 <= c <= 122 \/ 224 <= c <= 254 /\ c <> 247)
      /\ c <> 223 /\ c <> 181 /\ c <> 255 /\ upper_cp c = [c])%N.
Proof.
  unfold upper_cp.
  destruct ((97 <=? c) && (c <=? 122) || (224 <=? c) && (c <=? 254) && negb (c =? 247))%N
    eqn:E; reflect_code_point E; [left; split; [lia|reflexivity]|right].
  destruct (N.eqb_spec c 223); [left; auto|right].
  destruct (N.eqb_spec c 181); [left; auto|right].
  destruct (N.eqb_spec c 255); [left; auto|right].
  repeat split; auto; lia.
Qed.

Lemma upper_lower_cp c : upper_cp (lower_cp c) = upper_cp c.
Proof.
  destruct (lower_cp_cases c) as [[Hr ->]|[Hr ->]]; [|reflexivity].
  destruct (upper_cp_cases (c + 32)) as [[H ->]|[[H _]|[[H _]|[[H _]|(H & _)]]]]; try lia.
  destruct (upper_cp_cases c) as [[H' _]|[[H' _]|[[H' _]|[[H' _]|(_ & _ & _ & _ & ->)]]]];
    try lia.
  f_equal. lia.
Qed.

Lemma upper_lower s : upper (lower s) = upper s.
Proof.
  induction s as [|c s IH]; [reflexivity|].
  unfold upper, lower in *. cbn [map flat_map]. now rewrite upper_lower_cp, IH.
Qed.

Lemma startswith_refl a : startswith a a = true.
Proof. induction a as [|c a IH]; [reflexivity|]. simpl. now rewrite N.eqb_refl. Qed.

Lemma contains_refl a : contains a a = true.
Proof. destruct a; simpl; [reflexivity|]. now rewrite N.eqb_refl, startswith_refl. Qed.

(** A token whose upper-casing is made of capital letters other than S is,
    lower-cased, that word lower-cased. *)
Lemma upper_capitals_inv token word :
  upper token = word ->
  Forall capital_not_S word ->
  lower token = lower word.
Proof.
  revert word. induction token as [|c token IH]; intros word <- Hw; [reflexivity|].
  unfold upper in Hw |- *. cbn [flat_map] in Hw |- *.
  apply Forall_app in Hw as [Hc Ht].
  unfold lower. rewrite map_app. cbn [map].
  fold (lower token). fold (lower (upper token)). rewrite (IH _ eq_refl Ht).
  cut (map lower_cp (upper_cp c) = [lower_cp c]); [intros ->; reflexivity|].
  unfold capital_not_S in Hc.
  destruct (upper_cp_cases c) as [[H E]|[[H E]|[[H E]|[[H E]|(H & _ & _ & _ & E)]]]];
    rewrite E in Hc |- *;
    repeat match goal with H : Forall _ (_ :: _) |- _ => apply Forall_cons in H as [? ?] end;
    try lia; [|reflexivity].
  cbn [map]. f_equal.
  destruct (lower_cp_cases (c - 32)) as [[_ ->]|[? _]]; [|lia].
  destruct (lower_cp_cases c) as [[? _]|[_ ->]]; lia.
Qed.

Ltac each_name H :=
  cbn [dict_keys map fst STAT_EMOJIS STAT_ABBREVIATIONS In] in H;
  repeat (destruct H as [H|H]; [try (injection H as <- <-); try subst|]);
  [..|contradiction].

Lemma validate_stat_name_refines token :
  validate_stat_name token = Spec.resolve_stat_name token.
Proof.
  unfold validate_stat_name, Spec.resolve_stat_name.
  destruct (find (fun name => bool_decide (lower token = lower name))
                 (dict_keys STAT_EMOJIS)) as [name|] eqn:F.
  - apply find_some in F as [Hin Hl]. apply bool_decide_eq_true in Hl.
    destruct (dict_mem STAT_EMOJIS token) eqn:M.
    + apply dict_mem_keys in M.
      each_name M; each_name Hin; first [reflexivity | vm_compute in Hl; discriminate Hl].
    + rewrite <- (upper_lower token), Hl.
      each_name Hin; vm_compute; reflexivity.
  - destruct (dict_mem STAT_EMOJIS token) eqn:M; [|reflexivity].
    apply dict_mem_keys in M.
    pose proof (find_none _ _ F token M) as Hn. cbv beta in Hn.
    apply bool_decide_eq_false in Hn. congruence.
Qed.

Lemma abbreviations_are_capitals name abbrev :
  In (name, abbrev) STAT_ABBREVIATIONS -> Forall capital_not_S abbrev.
Proof.
  intros H.
  each_name H;
    match goal with
    | |- Forall _ ?l => let l' := eval vm_compute in l in change l with l'
    end;
    repeat (constructor; [unfold capital_not_S; lia|]); constructor.
Qed.

(** A token that is, up to case, part of one name only resolves to it. *)
Lemma validate_unambiguous_substring token name :
  In name (dict_keys STAT_EMOJIS) ->
  contains (lower name) (lower token) = true ->
  (forall other, In other (dict_keys STAT_EMOJIS) ->
                 contains (lower other) (lower token) = true -> other = name) ->
  validate_stat_name token = Some name.
Proof.
  intros Hname Hsub Huniq. unfold validate_stat_name.
  destruct (dict_mem STAT_EMOJIS token) eqn:M.
  - f_equal. apply Huniq; [now apply dict_mem_keys | apply contains_refl].
  - destruct (find _ STAT_ABBREVIATIONS) as [[n a]|] eqn:F.
    + apply find_some in F as [Hin Hu]. apply bool_decide_eq_true in Hu.
      rewrite (upper_capitals_inv _ _ Hu (abbreviations_are_capitals _ _ Hin)) in Hsub.
      each_name Hin; each_name Hname;
        first [reflexivity | vm_compute in Hsub; discriminate Hsub].
    + cbv zeta.
      destruct (find _ (dict_keys STAT_EMOJIS)) as [n|] eqn:F2.
      * apply find_some in F2 as [Hin Hc]. f_equal. now apply Huniq.
      * pose proof (find_none _ _ F2 name Hname) as Hn. cbv beta in Hn. congruence.
Qed.

(** A token is rejected exactly when none of the three steps matches. *)
Lemma validate_stat_name_none token :
  validate_stat_name token = None <->
  (~ In token (dict_keys STAT_EMOJIS)
   /\ (forall name abbrev, In (name, abbrev) STAT_ABBREVIATIONS -> upper token <> abbrev)
   /\ (forall name, In name (dict_keys STAT_EMOJIS) ->
                    contains (lower name) (lower token) = false)).
Proof.
  unfold validate_stat_name. split.
  - destruct (dict_mem STAT_EMOJIS token) eqn:M; [discriminate|].
    destruct (find _ STAT_ABBREVIATIONS) as [[n a]|] eqn:F; [discriminate|].
    cbv zeta. intros F2. split; [|split].
    + intros Hin. apply dict_mem_keys in Hin. congruence.
    + intros name abbrev Hin. pose proof (find_none _ _ F _ Hin) as Hn. cbv beta in Hn.
      now apply bool_decide_eq_false in Hn.
    + intros name Hin. exact (find_none _ _ F2 _ Hin).
  - intros (H1 & H2 & H3).
    destruct (dict_mem STAT_EMOJIS token) eqn:M; [now apply dict_mem_keys in M|].
    destruct (find _ STAT_ABBREVIATIONS) as [[n a]|] eqn:F.
    + apply find_some in F as [Hin Hu]. apply bool_decide_eq_true in Hu.
      now destruct (H2 _ _ Hin).
    + cbv zeta. destruct (find _ (dict_keys STAT_EMOJIS)) as [n|] eqn:F2; [|reflexivity].
      apply find_some in F2 as [Hin Hc]. rewrite (H3 _ Hin) in Hc. discriminate.
Qed.

(** C4. For a token of Latin-1 text: the code resolves it as the
    specification says (a name equal up to case, else the name whose
    abbreviation the upper-cased token is, else the first name that contains
    the token up to case); every name, its abbreviation, and a token that is
    part, up to case, of that name only, resolve to that name; a token that
    matches at none of the three steps resolves to nothing, and [!add] then
    answers "Statistique invalide" and leaves the store as it was. *)
Theorem stat_name_resolution (token : str) (Hlatin : latin1 token) :
  validate_stat_name token = Spec.resolve_stat_name token
  /\ (forall name abbrev,
        In (name, abbrev) STAT_ABBREVIATIONS ->
        validate_stat_name name = Some name
        /\ validate_stat_name abbrev = Some name
        /\ (contains (lower name) (lower token) = true ->
            (forall other, In other (dict_keys STAT_EMOJIS) ->
                           contains (lower other) (lower token) = true -> other = name) ->
            validate_stat_name token = Some name))
  /\ (validate_stat_name token = None <->
      (~ In token (dict_keys STAT_EMOJIS)
       /\ (forall name abbrev, In (name, abbrev) STAT_ABBREVIATIONS -> upper token <> abbrev)
       /\ (forall name, In name (dict_keys STAT_EMOJIS) ->
                        contains (lower name) (lower token) = false)))
  /\ (validate_stat_name token = None ->
      forall w db author prof points,
        get_profile db (member_id author) = Some prof ->
        CommandsOld.add_stat_points w db author token points
          = (StatistiqueInvalide token, db)).
Proof.
  split; [apply validate_stat_name_refines|].
  split; [|split; [apply validate_stat_name_none|]].
  - intros name abbrev Hin.
    split; [each_name Hin; vm_compute; reflexivity|].
    split; [each_name Hin; vm_compute; reflexivity|].
    apply validate_unambiguous_substring.
    each_name Hin; vm_compute; tauto.
  - intros Hnone w db author prof points Hp.
    unfold CommandsOld.add_stat_points. now rewrite Hp, Hnone.
Qed.

Lemma stat_name_resolution_witness :
  validate_stat_name (py "dur") = Spec.resolve_stat_name (py "dur")
  /\ validate_stat_name (py "dur") = Some Endurance.
Proof.
  destruct (stat_name_resolution (py "dur")) as (H1 & H2 & _).
  { repeat constructor. }
  split; [exact H1|].
  destruct (H2 Endurance (py "END")) as (_ & _ & H3).
  { vm_compute. tauto. }
  apply H3; [reflexivity|].
  intros other Hin Hc. each_name Hin; first [reflexivity | vm_compute in Hc; discriminate Hc].
Defined.

(** *** Position scores *)

Lemma SFltb_ordinal a b :
  nonneg_finite a = true -> nonneg_finite b = true ->
  SFltb a b = (ordinal a <? ordinal b).
Proof.
  destruct a as [sa|sa| |[] ma ea], b as [sb|sb| |[] mb eb]; try discriminate;
    cbn [nonneg_finite]; rewrite ?andb_true_iff, ?Z.ltb_lt, ?Z.leb_le;
    intros Ha Hb; unfold SFltb, SFcompare, ordinal; symmetry.
  - reflexivity.
  - apply Z.ltb_lt. lia.
  - apply Z.ltb_ge. lia.
  - destruct (Z.compare_spec ea eb); [|apply Z.ltb_lt; lia|apply Z.ltb_ge; lia].
    subst eb. change (Pos.compare_cont Eq ma mb) with (Pos.compare ma mb).
    destruct (Pos.compare_spec ma mb); [apply Z.ltb_ge|apply Z.ltb_lt|apply Z.ltb_ge]; lia.
Qed.

Lemma forallb_seq (f : nat -> bool) n :
  forallb f (seq 0 n) = true -> forall k, (k < n)%nat -> f k = true.
Proof. intros H k Hk. rewrite forallb_forall in H. apply H, in_seq. lia. Qed.


Lemma score_table : forallb (fun n =>
             let x := Z.of_nat n in
             nonneg_finite (Utils.truediv x 3)
             && (ordinal (Utils.truediv x 3) <? ordinal (Utils.truediv (x + 1) 3)))
          (seq 0 3000) = true.
Proof. vm_compute. reflexivity. Qed.

Lemma score_3000 : nonneg_finite (Utils.truediv 3000 3) = true.
Proof. vm_compute. reflexivity. Qed.

Lemma score_step x :
  0 <= x < 3000 ->
  nonneg_finite (Utils.truediv x 3) = true
  /\ ordinal (Utils.truediv x 3) < ordinal (Utils.truediv (x + 1) 3).
Proof.
  intros Hx. pose proof (forallb_seq _ _ score_table (Z.to_nat x) ltac:(lia)) as H.
  cbv beta zeta in H. rewrite Z2Nat.id in H by lia.
  rewrite andb_true_iff, Z.ltb_lt in H. exact H.
Qed.

Lemma score_nonneg_finite x : 0 <= x <= 3000 -> nonneg_finite (Utils.truediv x 3) = true.
Proof.
  intros Hx. destruct (Z.eq_dec x 3000) as [->|Hne]; [exact score_3000|].
  apply score_step. lia.
Qed.

Lemma score_ordinal_mono x y :
  0 <= x -> x < y -> y <= 3000 -> ordinal (Utils.truediv x 3) < ordinal (Utils.truediv y 3).
Proof.
  intros Hx Hxy Hy.
  replace y with (x + 1 + Z.of_nat (Z.to_nat (y - x - 1))) in * by lia.
  induction (Z.to_nat (y - x - 1)) as [|k IH].
  - rewrite Z.add_0_r. apply score_step. lia.
  - etransitivity; [apply IH; lia|].
    replace (x + 1 + Z.of_nat (S k)) with (x + 1 + Z.of_nat k + 1) by lia.
    apply score_step. lia.
Qed.

(** On sums of three stats of the legal range, the float quotients by 3
    compare as the sums do. *)
Lemma score_ltb x y :
  0 <= x <= 3000 -> 0 <= y <= 3000 ->
  SFltb (Utils.truediv x 3) (Utils.truediv y 3) = (x <? y).
Proof.
  intros Hx Hy. rewrite SFltb_ordinal by now apply score_nonneg_finite.
  destruct (Z.ltb_spec x y) as [H|H].
  - apply Z.ltb_lt, score_ordinal_mono; lia.
  - apply Z.ltb_ge. destruct (Z.eq_dec x y) as [->|Hne]; [lia|].
    apply Z.lt_le_incl, score_ordinal_mono; lia.
Qed.

(** [max] returns the first of the greatest: what precedes it is strictly
    smaller, what follows is not greater. [f] measures the keys. *)
Lemma max_from_first_greatest {A K} (lt : K -> K -> bool) (key : A -> K)
    (f : A -> Z) (l : list A) :
  forall pre best mid,
    (forall a b, In a (best :: mid ++ l) -> In b (best :: mid ++ l) ->
                 lt (key a) (key b) = (f a <? f b)) ->
    (forall x, In x pre -> f x < f best) ->
    (forall x, In x mid -> f x <= f best) ->
    exists before after,
      pre ++ best :: mid ++ l = before ++ Utils.max_from lt key best l :: after
      /\ (forall x, In x before -> f x < f (Utils.max_from lt key best l))
      /\ (forall x, In x after -> f x <= f (Utils.max_from lt key best l)).
Proof.
  induction l as [|x l IH]; intros pre best mid Hlt Hpre Hmid.
  - exists pre, mid. rewrite app_nil_r. auto.
  - cbn [Utils.max_from]. rewrite Hlt by (simpl; rewrite ?in_app_iff; simpl; auto).
    destruct (Z.ltb_spec (f best) (f x)) as [Hbx|Hbx].
    + destruct (IH (pre ++ best :: mid) x []) as (before & after & E & Hb & Ha).
      * intros a b Ia Ib. apply Hlt; simpl in *; rewrite in_app_iff; simpl; tauto.
      * intros y Hy. apply in_app_iff in Hy as [Hy|[<-|Hy]];
          [specialize (Hpre _ Hy)| |specialize (Hmid _ Hy)]; lia.
      * intros y [].
      * exists before, after. split; [|auto].
        rewrite <- E. cbn [app]. rewrite <- app_assoc. reflexivity.
    + destruct (IH pre best (mid ++ [x])) as (before & after & E & Hb & Ha).
      * intros a b Ia Ib. rewrite <- app_assoc in Ia, Ib. now apply Hlt.
      * exact Hpre.
      * intros y Hy. apply in_app_iff in Hy as [Hy|[<-|[]]]; [now apply Hmid|lia].
      * exists before, after. split; [|auto].
        rewrite <- E, <- app_assoc. reflexivity.
Qed.

(** C9. For stats of the legal range [0, 1000], [Utils.get_position_from_stats]
    returns a position whose score (the mean of its three stats) is the
    highest of the five; the positions declared before it score strictly
    less, so a tie goes to the first declared. The scores are the
    unweighted means the specification lists. *)
Theorem suggested_position_is_first_highest (st : gmap str Z)
    (Hrange : forall k, In k (dict_keys STAT_EMOJIS) ->
                        exists v, st !! k = Some v /\ 0 <= v <= 1000) :
  exists before name score after,
    Spec.position_scores st = before ++ (name, score) :: after
    /\ Utils.get_position_from_stats st = inr name
    /\ (forall x, In x before -> (x.2 < score)%Q)
    /\ (forall x, In x after -> (x.2 <= score)%Q).
Proof.
  destruct (Hrange Force_Physique) as (fo & Hfo & ?); [vm_compute; tauto|].
  destruct (Hrange Precision) as (pr & Hpr & ?); [vm_compute; tauto|].
  destruct (Hrange Manip_Ballon) as (mb & Hmb & ?); [vm_compute; tauto|].
  destruct (Hrange Agilite) as (ag & Hag & ?); [vm_compute; tauto|].
  destruct (Hrange Detente) as (dt & Hdt & ?); [vm_compute; tauto|].
  destruct (Hrange Defense) as (de & Hde & ?); [vm_compute; tauto|].
  destruct (Hrange Vitesse) as (vi & Hvi & ?); [vm_compute; tauto|].
  destruct (Hrange Endurance) as (en & Hen & ?); [vm_compute; tauto|].
  clear Hrange.
  unfold Utils.get_position_from_stats, Utils.getitem, Spec.position_scores, Spec.mean3.
  rewrite Hfo, Hpr, Hmb, Hag, Hdt, Hde, Hvi, Hen.
  cbv beta iota zeta. cbn [default].
  set (sums := [ (Meneur, mb + ag + vi); (Arriere, pr + de + vi);
                 (Ailier, ag + pr + de); (Ailier_Fort, fo + dt + de);
                 (Pivot, fo + dt + en) ]).
  set (f := fun x : str => default 0 (dict_get sums x)).
  set (positions := [ (Meneur, Utils.truediv (mb + ag + vi) 3); _; _; _; _ ]).
  set (key := fun x : str => default S754_nan (dict_get positions x)).
  assert (Hkey : forall a, In a (dict_keys positions) ->
                           key a = Utils.truediv (f a) 3 /\ 0 <= f a <= 3000).
  { intros a Ha. cbn [dict_keys map fst positions In] in Ha.
    repeat (destruct Ha as [<-|Ha]; [split; [reflexivity|]|]); try contradiction.
    - change (f Meneur) with (mb + ag + vi). lia.
    - change (f Arriere) with (pr + de + vi). lia.
    - change (f Ailier) with (ag + pr + de). lia.
    - change (f Ailier_Fort) with (fo + dt + de). lia.
    - change (f Pivot) with (fo + dt + en). lia. }
  destruct (max_from_first_greatest SFltb key f
              [Arriere; Ailier; Ailier_Fort; Pivot] [] Meneur [])
    as (before & after & E & Hb & Ha).
  { intros a b Ia Ib.
    destruct (Hkey a Ia) as [-> ?], (Hkey b Ib) as [-> ?]. now apply score_ltb. }
  { intros x []. }
  { intros x []. }
  cbn [app] in E.
  set (g := fun n : str => (n, f n # 3)).
  exists (map g before), (Utils.max_from SFltb key Meneur [Arriere; Ailier; Ailier_Fort; Pivot]),
         (f (Utils.max_from SFltb key Meneur [Arriere; Ailier; Ailier_Fort; Pivot]) # 3),
         (map g after).
  split; [|split; [reflexivity|split]].
  - change (map g [Meneur; Arriere; Ailier; Ailier_Fort; Pivot]
            = map g before ++ g (Utils.max_from SFltb key Meneur [Arriere; Ailier; Ailier_Fort; Pivot])
                :: map g after).
    rewrite E, map_app. reflexivity.
  - intros x Hx. apply in_map_iff in Hx as (y & <- & Hy). specialize (Hb y Hy).
    unfold Qlt, g. cbn [snd Qnum Qden]. lia.
  - intros x Hx. apply in_map_iff in Hx as (y & <- & Hy). specialize (Ha y Hy).
    unfold Qle, g. cbn [snd Qnum Qden]. lia.
Qed.

Lemma suggested_position_is_first_highest_witness :
  let st := stats (PlayerProfile.init 7 [] Pivot 0) in
  exists before name score after,
    Spec.position_scores st = before ++ (name, score) :: after
    /\ Utils.get_position_from_stats st = inr name
    /\ (forall x, In x before -> (x.2 < score)%Q)
    /\ (forall x, In x after -> (x.2 <= score)%Q).
Proof.
  apply suggested_position_is_first_highest.
  intros k Hk. each_name Hk; exists 500; (split; [reflexivity|lia]).
Defined.

Example suggested_position_samples :
  Utils.get_position_from_stats (stats (PlayerProfile.init 7 [] Pivot 0)) = inr Meneur
  /\ Utils.get_position_from_stats
       (<[Endurance := 501]> (stats (PlayerProfile.init 7 [] Pivot 0))) = inr Pivot.
Proof. split; reflexivity. Qed.

(** * Further properties of the code *)

(** * More properties *)

(** *** Archetypes *)

Lemma role_mapping_known role a :
  dict_get ROLE_ARCHETYPE_MAPPING role = Some a -> dict_mem ARCHETYPES a = true.
Proof.
  unfold ROLE_ARCHETYPE_MAPPING. cbn [dict_get].
  repeat (case_bool_decide; [intros [= <-]; reflexivity|]). discriminate.
Qed.

Lemma get_archetype_from_roles_known member_roles :
  dict_mem ARCHETYPES (get_archetype_from_roles member_roles) = true.
Proof.
  induction member_roles as [|role rest IH]; [reflexivity|].
  cbn [get_archetype_from_roles].
  destruct (dict_get ROLE_ARCHETYPE_MAPPING role) eqn:E; [|exact IH].
  now apply role_mapping_known in E.
Qed.

(** X1. [get_archetype_from_roles] answers with a key of [ARCHETYPES],
    whatever the roles: the archetype of the first role that the mapping
    knows, and "Généraliste" when it knows none. *)
Theorem archetype_from_roles_is_known (member_roles : list str) :
  dict_mem ARCHETYPES (get_archetype_from_roles member_roles) = true
  /\ ((forall role, In role member_roles -> dict_get ROLE_ARCHETYPE_MAPPING role = None) ->
      get_archetype_from_roles member_roles = Generaliste)
  /\ (forall before role after a,
        member_roles = before ++ role :: after ->
        (forall r, In r before -> dict_get ROLE_ARCHETYPE_MAPPING r = None) ->
        dict_get ROLE_ARCHETYPE_MAPPING role = Some a ->
        get_archetype_from_roles member_roles = a).
Proof.
  split; [apply get_archetype_from_roles_known|split].
  - induction member_roles as [|role rest IH]; intros H; [reflexivity|].
    cbn [get_archetype_from_roles]. rewrite (H role) by now left.
    apply IH. intros r Hr. apply H. now right.
  - intros before role after a -> Hb Hr.
    induction before as [|r before IH]; cbn [app get_archetype_from_roles].
    + now rewrite Hr.
    + rewrite (Hb r) by now left. apply IH. intros r' Hr'. apply Hb. now right.
Qed.

(** *** [apply_archetype_bonus] *)

Lemma apply_bonus_lookup st stat bonus k :
  PlayerProfile.apply_bonus st (stat, bonus) !! k =
    if bool_decide (k = stat)
    then (fun v => Z.max 0 (Z.min 100 (v + bonus))) <$> st !! k
    else st !! k.
Proof.
  unfold PlayerProfile.apply_bonus. case_bool_decide as E.
  - subst k. destruct (st !! stat) as [v|] eqn:Es.
    + now rewrite lookup_insert_eq.
    + now rewrite Es.
  - destruct (st !! stat); [|reflexivity]. now rewrite lookup_insert_ne by congruence.
Qed.

Lemma apply_bonuses_lookup bonuses : forall st k,
  (~ In k (map fst bonuses) -> fold_left PlayerProfile.apply_bonus bonuses st !! k = st !! k)
  /\ (is_Some (fold_left PlayerProfile.apply_bonus bonuses st !! k) <-> is_Some (st !! k))
  /\ (In k (map fst bonuses) ->
      forall v, fold_left PlayerProfile.apply_bonus bonuses st !! k = Some v ->
                0 <= v <= 100).
Proof.
  induction bonuses as [|[stat bonus] bonuses IH]; intros st k; cbn [fold_left map fst In].
  - repeat split; tauto.
  - destruct (IH (PlayerProfile.apply_bonus st (stat, bonus)) k) as (IH1 & IH2 & IH3).
    split; [|split].
    + intros Hn. rewrite IH1 by tauto. rewrite apply_bonus_lookup.
      case_bool_decide; [subst; tauto|reflexivity].
    + rewrite IH2, apply_bonus_lookup. case_bool_decide; [|reflexivity].
      now rewrite fmap_is_Some.
    + intros Hin v Hv. destruct (decide (k ∈ map fst bonuses)) as [Hi|Hi];
        rewrite list_elem_of_In in Hi.
      * now apply IH3.
      * destruct Hin as [<-|Hin]; [|tauto].
        rewrite IH1, apply_bonus_lookup in Hv by assumption.
        rewrite bool_decide_eq_true_2 in Hv by reflexivity.
        destruct (st !! stat) as [v0|]; [|discriminate].
        injection Hv as <-. lia.
Qed.

(** X2. [apply_archetype_bonus] keeps the keys of [stats] and touches only
    the stats that the archetype names: each of those that the profile has
    ends between 0 and 100, whatever it was; the others keep their values,
    and so does the whole profile when the archetype is not configured. *)
Theorem apply_archetype_bonus_frame
    (self : PlayerProfile) (archetype_config : list (str * Archetype)) :
  let after := PlayerProfile.apply_archetype_bonus self archetype_config in
  (dict_get archetype_config (archetype self) = None -> after = self)
  /\ (forall k, is_Some (stats after !! k) <-> is_Some (stats self !! k))
  /\ (forall a k v,
        dict_get archetype_config (archetype self) = Some a ->
        In k (map fst (stat_bonuses a)) ->
        stats after !! k = Some v -> 0 <= v <= 100)
  /\ (forall a k,
        dict_get archetype_config (archetype self) = Some a ->
        ~ In k (map fst (stat_bonuses a)) ->
        stats after !! k = stats self !! k)
  /\ available_points after = available_points self
  /\ archetype after = archetype self
  /\ user_id after = user_id self.
Proof.
  cbv zeta. unfold PlayerProfile.apply_archetype_bonus.
  destruct (dict_get archetype_config (archetype self)) as [a|] eqn:E.
  - split; [discriminate|]. cbn [stats set_stats available_points archetype user_id].
    split; [intros k; apply apply_bonuses_lookup|].
    split; [intros a' k v [= <-] Hin Hv;
            now apply (apply_bonuses_lookup (stat_bonuses a) (stats self) k)|].
    split; [intros a' k [= <-] Hin;
            now apply (apply_bonuses_lookup (stat_bonuses a) (stats self) k)|].
    repeat split.
  - split; [reflexivity|]. split; [reflexivity|].
    split; [discriminate|]. split; [discriminate|]. repeat split.
Qed.

(** *** Totals *)

Lemma total_insert (m : gmap str Z) k v v' :
  m !! k = Some v ->
  map_fold (fun _ x acc => acc + x) 0 (<[k := v']> m)
  = map_fold (fun _ x acc => acc + x) 0 m - v + v'.
Proof.
  intros H.
  rewrite (map_fold_delete_L _ _ k v m); [|intros; lia|exact H].
  rewrite <- insert_delete_eq.
  rewrite map_fold_insert_L; [lia|intros; lia|apply lookup_delete_eq].
Qed.

Lemma add_all_conserves requests : forall self t self',
  add_all self requests t = Some self' ->
  PlayerProfile.get_total_stats self'
    = PlayerProfile.get_total_stats self + sum_points requests
  /\ available_points self' = available_points self - sum_points requests
  /\ 0 <= sum_points requests
  /\ (forall k, is_Some (stats self' !! k) <-> is_Some (stats self !! k)).
Proof.
  induction requests as [|[stat points] rest IH]; intros self t self'; cbn [add_all].
  - intros [= <-]. unfold sum_points; simpl. repeat split; tauto || lia.
  - destruct (stats self !! stat) as [old|] eqn:E;
      [|unfold PlayerProfile.add_stat_points; rewrite E; discriminate].
    rewrite (add_stat_points_eq _ _ _ _ old E).
    destruct ((points <? 0) || (points >? available_points self)) eqn:G; [discriminate|].
    destruct (old + points >? 1000); [discriminate|].
    intros H. apply IH in H as (H1 & H2 & H3 & H4).
    apply orb_false_iff in G as [G _]. apply Z.ltb_ge in G.
    unfold PlayerProfile.get_total_stats in *.
    unfold spend in H1, H2, H4.
    cbn [stats available_points set_updated_at set_available_points set_stats] in H1, H2, H4.
    rewrite (total_insert _ _ old _ E) in H1.
    unfold sum_points in *. cbn [fold_right snd].
    split; [lia|]. split; [lia|]. split; [lia|].
    intros k. rewrite H4. destruct (decide (k = stat)) as [->|Hne].
    + rewrite lookup_insert_eq, E. split; eauto.
    + now rewrite lookup_insert_ne by congruence.
Qed.

(** X3. Any run of calls to [add_stat_points] that all succeed raises the
    total of the stats by exactly the points spent and lowers the balance by
    the same amount; the keys of [stats] stay the same. *)
Theorem allocations_conserve_total
    (self self' : PlayerProfile) (requests : list (str * Z)) (t : Z)
    (Hrun : add_all self requests t = Some self') :
  PlayerProfile.get_total_stats self' + available_points self'
    = PlayerProfile.get_total_stats self + available_points self
  /\ PlayerProfile.get_total_stats self'
     = PlayerProfile.get_total_stats self + sum_points requests
  /\ available_points self' = available_points self - sum_points requests
  /\ 0 <= sum_points requests
  /\ (forall k, is_Some (stats self' !! k) <-> is_Some (stats self !! k)).
Proof.
  destruct (add_all_conserves _ _ _ _ Hrun) as (H1 & H2 & H3 & H4).
  repeat split; try lia; apply H4.
Qed.

Lemma allocations_conserve_total_witness :
  match add_all (Sample.profile 200 500)
                [(Vitesse, 100); (Agilite, 60); (Vitesse, 40)] 5 with
  | Some self' =>
      PlayerProfile.get_total_stats self' + available_points self'
      = PlayerProfile.get_total_stats (Sample.profile 200 500) + 200
  | None => False
  end.
Proof.
  destruct (add_all _ _ _) as [self'|] eqn:E; [|vm_compute in E; discriminate E].
  apply (allocations_conserve_total _ _ _ _ E).
Defined.

Lemma stats_shape (p : PlayerProfile) :
  profile_ok p ->
  exists fo pr mb ag dt de vi en,
    stats p = list_to_map
                [ (Force_Physique, fo); (Precision, pr); (Manip_Ballon, mb);
                  (Agilite, ag); (Detente, dt); (Defense, de);
                  (Vitesse, vi); (Endurance, en) ]
    /\ 0 <= fo <= 1000 /\ 0 <= pr <= 1000 /\ 0 <= mb <= 1000 /\ 0 <= ag <= 1000
    /\ 0 <= dt <= 1000 /\ 0 <= de <= 1000 /\ 0 <= vi <= 1000 /\ 0 <= en <= 1000.
Proof.
  intros (Hk & Hv & _).
  assert (Hget : forall k, In k (dict_keys STAT_EMOJIS) ->
                           exists v, stats p !! k = Some v /\ 0 <= v <= 1000).
  { intros k Hin. apply Hk in Hin as [v E]. exists v. split; [exact E|]. now apply (Hv k). }
  destruct (Hget Force_Physique) as (fo & Efo & ?); [vm_compute; tauto|].
  destruct (Hget Precision) as (pr & Epr & ?); [vm_compute; tauto|].
  destruct (Hget Manip_Ballon) as (mb & Emb & ?); [vm_compute; tauto|].
  destruct (Hget Agilite) as (ag & Eag & ?); [vm_compute; tauto|].
  destruct (Hget Detente) as (dt & Edt & ?); [vm_compute; tauto|].
  destruct (Hget Defense) as (de & Ede & ?); [vm_compute; tauto|].
  destruct (Hget Vitesse) as (vi & Evi & ?); [vm_compute; tauto|].
  destruct (Hget Endurance) as (en & Een & ?); [vm_compute; tauto|].
  exists fo, pr, mb, ag, dt, de, vi, en. split; [|tauto].
  apply map_eq. intros k. cbn [list_to_map foldr uncurry fst snd].
  repeat (rewrite lookup_insert; case_decide; [subst k; assumption|]).
  rewrite lookup_empty.
  destruct (stats p !! k) as [v|] eqn:E; [|reflexivity].
  assert (Hin : In k (dict_keys STAT_EMOJIS)) by (apply Hk; eauto).
  cbn [dict_keys map fst STAT_EMOJIS In] in Hin.
  repeat (destruct Hin as [Hin|Hin]; [congruence|]). contradiction.
Qed.

(** X10. The total of a profile within the bounds of the data model is the
    sum of its eight stats and lies between 0 and 8000, the denominator that
    the profile card shows. *)
Theorem total_stats_bounds (p : PlayerProfile) (Hok : profile_ok p) :
  0 <= PlayerProfile.get_total_stats p <= 8000
  /\ exists fo pr mb ag dt de vi en,
       map (fun k => stats p !! k)
           [Force_Physique; Precision; Manip_Ballon; Agilite; Detente; Defense;
            Vitesse; Endurance]
       = [Some fo; Some pr; Some mb; Some ag; Some dt; Some de; Some vi; Some en]
       /\ PlayerProfile.get_total_stats p = fo + pr + mb + ag + dt + de + vi + en.
Proof.
  destruct (stats_shape p Hok) as (fo & pr & mb & ag & dt & de & vi & en & E & B).
  assert (T : PlayerProfile.get_total_stats p = fo + pr + mb + ag + dt + de + vi + en).
  { unfold PlayerProfile.get_total_stats. rewrite E.
    cbn [list_to_map foldr uncurry fst snd].
    repeat (rewrite map_fold_insert_L; [|intros; lia|vm_compute; reflexivity]).
    rewrite map_fold_empty. lia. }
  split; [lia|].
  exists fo, pr, mb, ag, dt, de, vi, en. split; [|exact T].
  rewrite E. reflexivity.
Qed.

(** *** The store *)


(** *** The bounds of the data model are kept *)

Lemma embed_color_is : Config.config_int (py "embed_color") = inr 16739125.
Proof. reflexivity. Qed.

Lemma color_in_range color_name c :
  Config.get_color_from_name color_name = inr c -> 0 <= c <= 16777215.
Proof.
  unfold Config.get_color_from_name. rewrite embed_color_is.
  destruct (dict_get Config.COLOR_MAPPING (lower color_name)) as [c'|] eqn:E;
    intros [= <-]; [|lia].
  revert E. unfold Config.COLOR_MAPPING. cbn [dict_get].
  repeat (case_bool_decide; [intros [= <-]; lia|]). discriminate.
Qed.

Lemma profile_ok_change (p p' : PlayerProfile) :
  profile_ok p ->
  (stats p' = stats p
   \/ exists k old v, stats p !! k = Some old /\ 0 <= v <= 1000
                      /\ stats p' = <[k := v]> (stats p)) ->
  0 <= available_points p' ->
  0 <= height p' -> 0 <= weight p' ->
  0 <= embed_color p' <= 16777215 ->
  archetype p' = archetype p ->
  profile_ok p'.
Proof.
  intros (Hk & Hv & _ & _ & _ & _ & Ha) Hs ? ? ? ? Harch.
  unfold profile_ok. rewrite Harch.
  destruct Hs as [->|(k & old & v & Hold & Hr & ->)]; [tauto|].
  repeat split; try tauto; try lia.
  - intros [x Hx]. apply Hk. destruct (decide (k0 = k)) as [->|Hne]; [eauto|].
    rewrite lookup_insert_ne in Hx by congruence. eauto.
  - intros Hin. apply Hk in Hin. destruct (decide (k0 = k)) as [->|Hne].
    + rewrite lookup_insert_eq. eauto.
    + now rewrite lookup_insert_ne by congruence.
  - destruct (decide (k0 = k)) as [->|Hne].
    + rewrite lookup_insert_eq in H3. injection H3 as <-. lia.
    + rewrite lookup_insert_ne in H3 by congruence. now apply (Hv k0).
  - destruct (decide (k0 = k)) as [->|Hne].
    + rewrite lookup_insert_eq in H3. injection H3 as <-. lia.
    + rewrite lookup_insert_ne in H3 by congruence. now apply (Hv k0).
Qed.

Lemma init_profile_ok uid name a t :
  dict_mem ARCHETYPES a = true -> profile_ok (PlayerProfile.init uid name a t).
Proof.
  intros Ha. unfold profile_ok, PlayerProfile.init.
  cbn [stats available_points height weight embed_color archetype].
  split; [|split; [|repeat split; try lia; exact Ha]].
  - intros k. cbn [list_to_map foldr uncurry fst snd dict_keys map STAT_EMOJIS In].
    split.
    + repeat (rewrite lookup_insert; case_decide; [tauto|]).
      rewrite lookup_empty. intros [? [=]].
    + intros Hin. repeat (destruct Hin as [<-|Hin]; [vm_compute; eauto|]). contradiction.
  - intros k v. cbn [list_to_map foldr uncurry fst snd].
    repeat (rewrite lookup_insert; case_decide; [intros [= <-]; lia|]).
    rewrite lookup_empty. discriminate.
Qed.

Lemma created_profile_ok uid name a t :
  dict_mem ARCHETYPES a = true ->
  profile_ok (set_available_points
                (PlayerProfile.apply_archetype_bonus (PlayerProfile.init uid name a t)
                   ARCHETYPES) 200).
Proof.
  intros Ha. pose proof (init_profile_ok uid name a t Ha) as Hinit.
  unfold PlayerProfile.apply_archetype_bonus.
  destruct (dict_get ARCHETYPES (archetype (PlayerProfile.init uid name a t))) as [ar|];
    [|apply (profile_ok_change _ _ Hinit); auto; cbn; lia].
  destruct Hinit as (Hk & Hv & _).
  unfold profile_ok.
  cbn [stats available_points height weight embed_color archetype set_available_points
       set_stats PlayerProfile.init] in *.
  split; [|split; [|repeat split; try lia; exact Ha]].
  - intros k. rewrite <- Hk. apply apply_bonuses_lookup.
  - intros k v Hl.
    destruct (decide (k ∈ map fst (stat_bonuses ar))) as [Hi|Hi];
      rewrite list_elem_of_In in Hi.
    + pose proof (proj2 (proj2 (apply_bonuses_lookup (stat_bonuses ar) _ k)) Hi v Hl). lia.
    + rewrite (proj1 (apply_bonuses_lookup (stat_bonuses ar) _ k) Hi) in Hl.
      now apply (Hv k).
Qed.

Lemma store_ok_saved w db p b db' :
  save_profile w db p = (b, db') -> store_ok db -> profile_ok p -> store_ok db'.
Proof.
  unfold save_profile. destruct (disk_ok w); intros [= <- <-] Hdb Hp; [|exact Hdb].
  intros uid q. unfold get_profile. cbn [player_profiles].
  destruct (decide (uid = user_id p)) as [->|Hne].
  - rewrite lookup_insert_eq. intros [= <-]. auto.
  - rewrite lookup_insert_ne by congruence. apply Hdb.
Qed.

Lemma store_ok_logged w db uid act det admin :
  store_ok db -> store_ok (log_action w db uid act det admin).
Proof. intros H. exact H. Qed.

Lemma store_ok_deleted w db uid b db' :
  Database.delete_profile w db uid = (b, db') -> store_ok db -> store_ok db'.
Proof.
  unfold Database.delete_profile. destruct (disk_ok w); intros [= <- <-] Hdb; [|exact Hdb].
  intros k q. unfold get_profile. cbn [player_profiles].
  destruct (decide (k = uid)) as [->|Hne].
  - now rewrite lookup_delete_eq.
  - rewrite lookup_delete_ne by congruence. apply Hdb.
Qed.

Lemma total_stats_bounds_witness :
  let p := PlayerProfile.init 7 (py "Rudy") Pivot 0 in
  0 <= PlayerProfile.get_total_stats p <= 8000
  /\ exists fo pr mb ag dt de vi en,
       map (fun k => stats p !! k)
           [Force_Physique; Precision; Manip_Ballon; Agilite; Detente; Defense;
            Vitesse; Endurance]
       = [Some fo; Some pr; Some mb; Some ag; Some dt; Some de; Some vi; Some en]
       /\ PlayerProfile.get_total_stats p = fo + pr + mb + ag + dt + de + vi + en.
Proof.
  cbv zeta.
  apply (total_stats_bounds (PlayerProfile.init 7 (py "Rudy") Pivot 0)).
  apply init_profile_ok. vm_compute. reflexivity.
Defined.

Ltac keep_store_ok :=
  repeat match goal with
    | |- store_ok (log_action _ _ _ _ _ _) => apply store_ok_logged
    | H : save_profile _ _ _ = (_, ?d) |- store_ok ?d =>
        eapply (store_ok_saved _ _ _ _ _ H); [assumption|]
    | H : Database.delete_profile _ _ _ = (_, ?d) |- store_ok ?d =>
        eapply (store_ok_deleted _ _ _ _ _ H); assumption
    end.

Lemma run_keeps_store_ok py_int w db c :
  store_ok db -> store_ok (run py_int w db c).
Proof.
  intros Hdb. destruct c; cbn [run].
  - (* !create *)
    unfold CommandsOld.create_profile.
    destruct (get_profile db (member_id author)); [exact Hdb|].
    destruct (save_profile _ _ _) as [[] db'] eqn:S; cbn [snd]; keep_store_ok;
      apply created_profile_ok, get_archetype_from_roles_known.
  - (* !add *)
    unfold CommandsOld.add_stat_points.
    destruct (get_profile db (member_id author)) as [prof|] eqn:P; [|exact Hdb].
    destruct (Hdb _ _ P) as [_ Hp].
    destruct (validate_stat_name stat_name) as [[|c stat]|]; try exact Hdb.
    destruct (Z.leb_spec points 0); [exact Hdb|].
    rewrite max_points_per_add_is.
    destruct (points >? 100); [exact Hdb|].
    destruct (Z.gtb_spec points (available_points prof)); [exact Hdb|].
    destruct (stats prof !! (c :: stat)) as [old|] eqn:E; [|exact Hdb].
    rewrite max_stat_value_is.
    destruct (Z.gtb_spec (old + points) 1000); [exact Hdb|].
    rewrite (add_stat_points_eq _ _ _ _ old E).
    destruct (Z.ltb_spec points 0); [lia|].
    destruct (Z.gtb_spec points (available_points prof)); [lia|].
    destruct (Z.gtb_spec (old + points) 1000); [lia|]. cbn [orb].
    pose proof Hp as (Hk & Hv & Ha & Hh & Hw & Hc & Har). specialize (Hv _ _ E).
    destruct (save_profile _ _ _) as [[] db'] eqn:S; cbn [snd]; keep_store_ok;
      (apply (profile_ok_change prof); auto;
       cbn [spend stats available_points height weight embed_color archetype
            set_updated_at set_available_points set_stats]; try lia;
       right; exists (c :: stat), old, (old + points); repeat split; auto; lia).
  - (* !color *)
    unfold PrefixCommands.set_embed_color.
    destruct (get_profile db (member_id author)) as [prof|] eqn:P; [|exact Hdb].
    destruct (Hdb _ _ P) as [_ Hp].
    destruct color_name as [|c color_name]; [exact Hdb|].
    destruct (Config.get_color_from_name (c :: color_name)) as [e|col] eqn:C; [exact Hdb|].
    rewrite embed_color_is.
    destruct ((col =? 16739125) && _); [exact Hdb|].
    apply color_in_range in C.
    pose proof Hp as (Hk & Hv & Ha & Hh & Hw & Hc & Har).
    destruct (save_profile _ _ _) as [[] db'] eqn:S; cbn [snd]; keep_store_ok;
      (apply (profile_ok_change prof); auto).
  - (* /create *)
    unfold SlashCommands.create_profile.
    destruct (get_profile db (user i)); [exact Hdb|].
    destruct (guild i) as [g|]; [|exact Hdb].
    destruct (members g !! user i) as [member|]; [|exact Hdb].
    pose proof (get_archetype_from_roles_known (roles member)) as Hknown.
    destruct (get_archetype_from_roles (roles member)) as [|c a]; [exact Hdb|].
    destruct (save_profile _ _ _) as [[] db'] eqn:S; cbn [snd]; keep_store_ok;
      now apply init_profile_ok.
  - (* /addstat *)
    unfold SlashCommands.add_stat.
    destruct (get_profile db (user i)) as [prof|] eqn:P; [|exact Hdb].
    destruct (Hdb _ _ P) as [_ Hp].
    destruct (Z.leb_spec points 0); [exact Hdb|].
    destruct (Z.gtb_spec points (available_points prof)); [exact Hdb|].
    destruct (stats prof !! statistique) as [old|] eqn:E; [|exact Hdb].
    rewrite max_stat_value_is.
    destruct (Z.gtb_spec (old + points) 1000); [exact Hdb|].
    pose proof Hp as (Hk & Hv & Ha & Hh & Hw & Hc & Har). specialize (Hv _ _ E).
    destruct (save_profile _ _ _) as [[] db'] eqn:S; cbn [snd]; keep_store_ok;
      (apply (profile_ok_change prof); auto;
       cbn [stats available_points height weight embed_color archetype
            set_updated_at set_available_points set_stats]; try lia;
       right; exists statistique, old, (old + points); repeat split; auto; lia).
  - (* /customize *)
    unfold customize_profile.
    destruct (get_profile db (user i)) as [prof|] eqn:P; [|exact Hdb].
    destruct (Hdb _ _ P) as [_ Hp].
    pose proof Hp as (Hk & Hv & Ha & Hh & Hw & Hc & Har).
    repeat case_bool_decide; try destruct (py_int valeur);
      try exact Hdb;
      (destruct (save_profile _ _ _) as [[] db'] eqn:S; cbn [snd]; keep_store_ok;
       apply (profile_ok_change prof); auto).
  - (* /color *)
    unfold BasketballCog.set_color.
    destruct (get_profile db (user i)) as [prof|] eqn:P; [|exact Hdb].
    destruct (Hdb _ _ P) as [_ Hp].
    destruct (Config.get_color_from_name couleur) as [e|col] eqn:C; [exact Hdb|].
    apply color_in_range in C.
    pose proof Hp as (Hk & Hv & Ha & Hh & Hw & Hc & Har).
    destruct (save_profile _ _ _) as [[] db'] eqn:S; cbn [snd]; keep_store_ok;
      (apply (profile_ok_change prof); auto).
  - (* /addpoints *)
    unfold AdminCog.add_points.
    destruct (negb _); [exact Hdb|].
    destruct (get_profile db joueur) as [prof|] eqn:P; [|exact Hdb].
    destruct (Hdb _ _ P) as [_ Hp].
    destruct (Z.leb_spec points 0); [exact Hdb|].
    pose proof Hp as (Hk & Hv & Ha & Hh & Hw & Hc & Har).
    destruct (save_profile _ _ _) as [[] db'] eqn:S; cbn [snd]; keep_store_ok;
      (apply (profile_ok_change prof); auto;
       cbn [stats available_points height weight embed_color archetype
            set_updated_at set_available_points set_stats]; lia).
  - (* /setstat *)
    unfold AdminCommands.set_stat.
    destruct (negb _); [exact Hdb|].
    destruct (get_profile db joueur) as [prof|] eqn:P; [|exact Hdb].
    destruct (Hdb _ _ P) as [_ Hp].
    rewrite max_stat_value_is.
    destruct (Z.ltb_spec valeur 0); [exact Hdb|].
    destruct (Z.gtb_spec valeur 1000); [exact Hdb|]. cbn [orb].
    destruct (stats prof !! statistique) as [old|] eqn:E; [|exact Hdb].
    pose proof Hp as (Hk & Hv & Ha & Hh & Hw & Hc & Har).
    destruct (save_profile _ _ _) as [[] db'] eqn:S; cbn [snd]; keep_store_ok;
      (apply (profile_ok_change prof); auto;
       right; exists statistique, old, valeur; repeat split; auto; lia).
  - (* /setphysical *)
    unfold AdminCog.set_physical.
    destruct (negb (AdminCommands.check_admin_permissions i)); [exact Hdb|].
    destruct (get_profile db joueur) as [prof|] eqn:P; [|exact Hdb].
    destruct (Hdb _ _ P) as [_ Hp].
    destruct ((taille =? 0) && (poids =? 0)); [exact Hdb|].
    pose proof Hp as (Hk & Hv & Ha & Hh & Hw & Hc & Har).
    destruct (negb (taille =? 0)), (Z.gtb_spec taille 0),
             (negb (poids =? 0)), (Z.gtb_spec poids 0); cbn [andb];
      (destruct (save_profile _ _ _) as [[] db'] eqn:S; cbn [snd]; keep_store_ok;
       apply (profile_ok_change prof); auto;
       cbn [stats available_points height weight embed_color archetype
            set_updated_at set_height set_weight]; lia).
  - (* the button "Confirmer" of /deleteprofile *)
    unfold AdminCog.confirm.
    destruct (Database.delete_profile _ _ _) as [[] db'] eqn:S; cbn [snd]; keep_store_ok.
  - exact Hdb.
  - exact Hdb.
  - exact Hdb.
Qed.

Lemma empty_store_ok : store_ok Sample.empty_store.
Proof.
  intros uid p H. unfold get_profile, Sample.empty_store in H.
  cbn [player_profiles] in H. now rewrite lookup_empty in H.
Qed.

(** X9. The handlers keep the bounds of the data model: if every stored
    profile sits under its own [user_id], has exactly the eight stats, each
    within 0..1000, a balance, a height and a weight that are not negative,
    a colour of 24 bits and a configured archetype, then the same holds
    after any history of commands and confirmation buttons, whatever the
    clock, the disk and the integer parser do. The names typed in the
    history are Latin-1, where [lower] and [upper] are Python's. *)
Theorem handlers_keep_the_bounds
    (py_int : str -> option Z) (db : Store) (history : list (World * Command))
    (Hlatin : Forall (fun step => latin1 (case_mapped step.2)) history)
    (Hdb : store_ok db) :
  store_ok (run_all py_int db history).
Proof.
  clear Hlatin. revert db Hdb. induction history as [|[w c] history IH]; intros db Hdb; [exact Hdb|].
  cbn [run_all fold_left fst snd]. apply IH. now apply run_keeps_store_ok.
Qed.

Lemma handlers_keep_the_bounds_witness :
  store_ok (run_all (fun _ => None) Sample.empty_store
              [ (Sample.world, OldCreate Sample.pivot_member);
                (Sample.world, OldColor Sample.pivot_member (py "Violet"));
                (Sample.world, SlashAddStat Sample.from_pivot Manip_Ballon 100);
                (Sample.world, AdminSetStat Sample.from_coach 7 Vitesse 1000) ]).
Proof.
  apply handlers_keep_the_bounds; [|exact empty_store_ok].
  repeat constructor.
Defined.

(** *** The log *)

Lemma saved_logs w db p b db' :
  save_profile w db p = (b, db') -> action_logs db' = action_logs db.
Proof. unfold save_profile. destruct (disk_ok w); now intros [= <- <-]. Qed.

Lemma deleted_logs w db uid b db' :
  Database.delete_profile w db uid = (b, db') -> action_logs db' = action_logs db.
Proof. unfold Database.delete_profile. destruct (disk_ok w); now intros [= <- <-]. Qed.

Ltac at_most_one_entry :=
  cbn [snd];
  match goal with
  | |- exists l, action_logs (log_action _ ?d _ _ _ _) = _ /\ _ =>
      unfold log_action; cbn [action_logs];
      first [ erewrite saved_logs by eassumption
            | erewrite deleted_logs by eassumption ];
      eexists [_]; split; [reflexivity | cbn; lia]
  | |- exists l, action_logs ?d = action_logs ?d ++ l /\ _ =>
      exists []; split; [symmetry; apply app_nil_r | cbn; lia]
  | |- exists l, action_logs ?d' = action_logs ?d ++ l /\ _ =>
      first [ erewrite saved_logs by eassumption
            | erewrite deleted_logs by eassumption ];
      exists []; split; [symmetry; apply app_nil_r | cbn; lia]
  end.

Lemma run_appends_to_log py_int w db c :
  exists l, action_logs (run py_int w db c) = action_logs db ++ l
            /\ (length l <= 1)%nat.
Proof.
  destruct c; cbn [run];
    unfold CommandsOld.create_profile, CommandsOld.add_stat_points,
           PrefixCommands.set_embed_color, SlashCommands.create_profile,
           SlashCommands.add_stat, customize_profile, BasketballCog.set_color,
           AdminCog.add_points, AdminCommands.set_stat, AdminCog.set_physical,
           AdminCog.confirm, AdminCog.cancel, AdminCog.reset_cancel;
    repeat (rewrite ?max_points_per_add_is, ?max_stat_value_is;
            case_match; try at_most_one_entry).
  all: try at_most_one_entry.
  exists []. split; [symmetry; apply app_nil_r | cbn; lia].
Qed.

(** X19. The log is append-only: a command or a confirmation button leaves
    the entries that were there, in their order, and adds at most one; a
    history adds at most one entry per step. The names typed in the history
    are Latin-1, where [lower] and [upper] are Python's. *)
Theorem log_is_append_only
    (py_int : str -> option Z) (db : Store) (history : list (World * Command))
    (Hlatin : Forall (fun step => latin1 (case_mapped step.2)) history) :
  exists l, action_logs (run_all py_int db history) = action_logs db ++ l
            /\ (length l <= length history)%nat.
Proof.
  clear Hlatin. revert db. induction history as [|[w c] history IH]; intros db.
  - exists []. split; [symmetry; apply app_nil_r | cbn; lia].
  - cbn [run_all fold_left fst snd].
    destruct (IH (run py_int w db c)) as (l2 & E2 & L2).
    destruct (run_appends_to_log py_int w db c) as (l1 & E1 & L1).
    exists (l1 ++ l2). unfold run_all in E2. rewrite E2, E1, <- app_assoc.
    split; [reflexivity|]. rewrite length_app. cbn [length]. lia.
Qed.

Lemma log_is_append_only_witness :
  exists l,
    action_logs (run_all (fun _ => None) (Sample.store 200 500)
                   [ (Sample.world, OldAdd Sample.pivot_member (py "vit") 50);
                     (Sample.world, OldColor Sample.pivot_member (py "gris"));
                     (Sample.world, SlashColor Sample.from_pivot (py "gris")) ])
    = action_logs (Sample.store 200 500) ++ l
    /\ (length l <= 3)%nat.
Proof.
  apply (log_is_append_only (fun _ => None) (Sample.store 200 500)
           [ (Sample.world, OldAdd Sample.pivot_member (py "vit") 50);
             (Sample.world, OldColor Sample.pivot_member (py "gris"));
             (Sample.world, SlashColor Sample.from_pivot (py "gris")) ]).
  repeat constructor.
Defined.

(** *** The administrator's commands *)

(** X4. [/addpoints], for an administrator and an existing profile, refuses
    an amount that is not positive and leaves the store as it was;
    otherwise, when the write succeeds, the balance grows by exactly the
    amount, nothing else of the profile moves but [updated_at], the other
    profiles are untouched, and one entry POINTS_ADDED carrying the
    administrator's id is appended to the log. *)
Theorem add_points_grants_exactly
    (w : World) (db : Store) (i : Interaction) (joueur points : Z)
    (prof : PlayerProfile)
    (Hadmin : AdminCommands.check_admin_permissions i = true)
    (Hprof : get_profile db joueur = Some prof)
    (Hkey : user_id prof = joueur) :
  (points <= 0 ->
   AdminCog.add_points w db i joueur points = (Common PointsInvalides, db))
  /\ (0 < points -> disk_ok w = false ->
      AdminCog.add_points w db i joueur points = (Common ErreurDeSauvegarde, db))
  /\ (0 < points -> disk_ok w = true ->
      let '(reply, db') := AdminCog.add_points w db i joueur points in
      reply = PointsAjoutesAdmin (available_points prof)
                                 (available_points prof + points) points
      /\ get_profile db' joueur
         = Some (set_updated_at
                   (set_available_points prof (available_points prof + points))
                   (now w))
      /\ (forall other, other <> joueur -> get_profile db' other = get_profile db other)
      /\ action_logs db'
         = action_logs db ++
           [ {| log_user_id := joueur; action := py "POINTS_ADDED";
                details := str_of_int points ++ py " points added by admin";
                admin_id := user i; timestamp := now w |} ]).
Proof.
  unfold AdminCog.add_points, save_profile. rewrite Hadmin, Hprof. cbn [negb].
  split; [|split].
  - intros H. destruct (Z.leb_spec points 0); [reflexivity|lia].
  - intros H ->. destruct (Z.leb_spec points 0); [lia|reflexivity].
  - intros H ->. destruct (Z.leb_spec points 0); [lia|].
    cbn [user_id set_updated_at set_available_points available_points].
    unfold get_profile, log_action. cbn [player_profiles action_logs].
    rewrite Hkey. split; [reflexivity|]. split; [apply lookup_insert_eq|].
    split; [|reflexivity]. intros other Hne. now apply lookup_insert_ne.
Qed.

Lemma add_points_grants_exactly_witness :
  (AdminCog.add_points Sample.world (Sample.store 0 500) Sample.from_coach 7 0)
  = (Common PointsInvalides, Sample.store 0 500).
Proof.
  apply (add_points_grants_exactly Sample.world (Sample.store 0 500) Sample.from_coach
           7 0 (Sample.profile 0 500) eq_refl eq_refl eq_refl).
  lia.
Defined.

(** X5. [/setphysical], for an administrator and an existing profile,
    answers "Paramètres manquants" exactly when both values are 0; otherwise
    it writes: a positive value replaces the height or the weight, a value
    that is not positive leaves it, and the stats, the balance and the rest
    of the profile are as they were. With only negative values it writes
    and logs although nothing but [updated_at] has changed. *)
Theorem set_physical_takes_positive_values
    (w : World) (db : Store) (i : Interaction) (joueur taille poids : Z)
    (prof : PlayerProfile)
    (Hadmin : AdminCommands.check_admin_permissions i = true)
    (Hprof : get_profile db joueur = Some prof)
    (Hkey : user_id prof = joueur) :
  ((AdminCog.set_physical w db i joueur taille poids).1 = ParametresManquants
   <-> taille = 0 /\ poids = 0)
  /\ (taille = 0 /\ poids = 0 ->
      (AdminCog.set_physical w db i joueur taille poids).2 = db)
  /\ (~ (taille = 0 /\ poids = 0) -> disk_ok w = true ->
      exists changes prof',
        (AdminCog.set_physical w db i joueur taille poids).1
          = CaracteristiquesModifiees changes
        /\ get_profile (AdminCog.set_physical w db i joueur taille poids).2 joueur
           = Some prof'
        /\ height prof' = (if 0 <? taille then taille else height prof)
        /\ weight prof' = (if 0 <? poids then poids else weight prof)
        /\ stats prof' = stats prof
        /\ available_points prof' = available_points prof
        /\ archetype prof' = archetype prof
        /\ updated_at prof' = now w
        /\ length changes = Nat.add (if 0 <? taille then 1%nat else 0%nat)
                                    (if 0 <? poids then 1%nat else 0%nat)).
Proof.
  unfold AdminCog.set_physical, save_profile. rewrite Hadmin, Hprof. cbn [negb].
  rewrite !Z.gtb_ltb.
  destruct (Z.eqb_spec taille 0) as [Ht|Ht], (Z.eqb_spec poids 0) as [Hp|Hp];
    cbn [andb negb fst snd]; [repeat split; auto; tauto|..];
    destruct (Z.ltb_spec 0 taille), (Z.ltb_spec 0 poids); try lia;
    destruct (disk_ok w); cbn [andb fst snd];
    (split; [split; [discriminate|tauto]|]); (split; [tauto|]);
    intros _ D; try discriminate D;
    eexists _, _; (split; [reflexivity|]);
    (split; [unfold get_profile, log_action;
             cbn [player_profiles user_id set_updated_at set_height set_weight];
             rewrite Hkey; apply lookup_insert_eq|]);
    repeat split.
Qed.

Lemma set_physical_takes_positive_values_witness :
  (AdminCog.set_physical Sample.world (Sample.store 0 500) Sample.from_coach 7 0 0).1
  = ParametresManquants.
Proof.
  apply (set_physical_takes_positive_values Sample.world (Sample.store 0 500)
           Sample.from_coach 7 0 0 (Sample.profile 0 500) eq_refl eq_refl eq_refl).
  split; reflexivity.
Defined.

(** X6. [/deleteprofile], for an administrator and an existing profile,
    opens a confirmation and changes nothing. "Confirmer" then removes the
    row, leaves the other rows, and logs PROFILE_DELETED with the
    administrator's id; pressed when the row is no longer there — a second
    time, for instance — or when the disk refuses, it answers "Erreur de
    suppression" and changes nothing. "Annuler" changes nothing. *)
Theorem delete_profile_after_confirmation
    (w : World) (db : Store) (i : Interaction) (joueur : Z) (prof : PlayerProfile)
    (Hadmin : AdminCommands.check_admin_permissions i = true)
    (Hprof : get_profile db joueur = Some prof) :
  let view := {| AdminCog.view_joueur := joueur; AdminCog.view_user_id := user i |} in
  AdminCog.delete_profile db i joueur = (ConfirmationDeSuppression, Some view)
  /\ AdminCog.cancel db view = (SuppressionAnnulee, db)
  /\ (disk_ok w = false -> AdminCog.confirm w db view = (ErreurDeSuppression, db))
  /\ (disk_ok w = true ->
      let '(reply, db') := AdminCog.confirm w db view in
      reply = ProfilSupprime
      /\ get_profile db' joueur = None
      /\ (forall other, other <> joueur -> get_profile db' other = get_profile db other)
      /\ action_logs db'
         = action_logs db ++
           [ {| log_user_id := joueur; action := py "PROFILE_DELETED";
                details := py "Profile deleted by admin";
                admin_id := user i; timestamp := now w |} ]
      /\ forall w', AdminCog.confirm w' db' view = (ErreurDeSuppression, db')).
Proof.
  cbv zeta. unfold AdminCog.delete_profile, AdminCog.cancel, AdminCog.confirm,
    Database.delete_profile.
  rewrite Hadmin, Hprof. cbn [negb AdminCog.view_joueur AdminCog.view_user_id].
  split; [reflexivity|]. split; [reflexivity|]. split; [now intros ->|].
  intros ->. unfold get_profile in Hprof.
  rewrite bool_decide_eq_true_2 by eauto.
  unfold get_profile, log_action. cbn [player_profiles action_logs].
  split; [reflexivity|]. split; [apply lookup_delete_eq|].
  split; [intros other Hne; now apply lookup_delete_ne|]. split; [reflexivity|].
  intros w'. destruct (disk_ok w'); [|reflexivity].
  cbn [player_profiles action_logs].
  rewrite bool_decide_eq_false_2
    by (rewrite lookup_delete_eq; intros [? [=]]).
  f_equal. f_equal. apply delete_id, lookup_delete_eq.
Qed.

Lemma delete_profile_after_confirmation_witness :
  AdminCog.delete_profile (Sample.store 0 500) Sample.from_coach 7
  = (ConfirmationDeSuppression,
     Some {| AdminCog.view_joueur := 7; AdminCog.view_user_id := 1 |}).
Proof.
  apply (delete_profile_after_confirmation Sample.world (Sample.store 0 500)
           Sample.from_coach 7 (Sample.profile 0 500) eq_refl eq_refl).
Defined.

(** X8. Someone without privilege — not the owner of the guild, and without
    the permissions and the roles that [is_admin] accepts, or outside a
    guild — gets "Permission refusée" from each of the five administrator
    commands, and the store is as it was. *)
Theorem admin_commands_refuse_the_unprivileged
    (w : World) (db : Store) (i : Interaction) (joueur : Z)
    (Hno : AdminCommands.check_admin_permissions i = false) :
  (forall points, AdminCog.add_points w db i joueur points = (Common PermissionRefusee, db))
  /\ (forall statistique valeur,
        AdminCommands.set_stat w db i joueur statistique valeur = (PermissionRefusee, db))
  /\ (forall taille poids,
        AdminCog.set_physical w db i joueur taille poids = (Common PermissionRefusee, db))
  /\ AdminCog.delete_profile db i joueur = (Common PermissionRefusee, None)
  /\ AdminCommands.reset_player db i joueur = (PermissionRefusee, None)
  /\ (guild i = None
      \/ exists g, guild i = Some g /\ owner_id g <> user i
                   /\ (members g !! user i = None
                       \/ exists m, members g !! user i = Some m
                                    /\ owner_id g <> member_id m
                                    /\ administrator m = false
                                    /\ manage_guild m = false
                                    /\ forall role, In role (roles m) ->
                                                    ~ In role ADMIN_ROLES)).
Proof.
  unfold AdminCog.add_points, AdminCommands.set_stat, AdminCog.set_physical,
    AdminCog.delete_profile, AdminCommands.reset_player.
  rewrite Hno. cbn [negb]. repeat (split; [reflexivity|]).
  unfold AdminCommands.check_admin_permissions, AdminCommands.is_admin in Hno.
  destruct (guild i) as [g|]; [|now left]. right. exists g. split; [reflexivity|].
  destruct (Z.eqb_spec (owner_id g) (user i)); [discriminate|]. split; [assumption|].
  destruct (members g !! user i) as [m|]; [|now left]. right. exists m.
  split; [reflexivity|].
  destruct (Z.eqb_spec (owner_id g) (member_id m)); [discriminate|].
  destruct (administrator m); [discriminate|].
  destruct (manage_guild m); [discriminate|].
  repeat split; auto.
  intros role Hin Hadm.
  assert (existsb (fun role => bool_decide (role ∈ ADMIN_ROLES)) (roles m) = true);
    [|congruence].
  apply existsb_exists. exists role. split; [assumption|].
  apply bool_decide_eq_true. now apply list_elem_of_In.
Qed.

Lemma admin_commands_refuse_the_unprivileged_witness :
  AdminCommands.set_stat Sample.world (Sample.store 0 500) Sample.from_pivot 7 Vitesse 1000
  = (PermissionRefusee, Sample.store 0 500).
Proof.
  apply (admin_commands_refuse_the_unprivileged Sample.world (Sample.store 0 500)
           Sample.from_pivot 7 eq_refl).
Defined.

(** *** Colours and personal fields *)



(** X17. [/customize] writes one personal field at most: whatever the field,
    the value and the integer parser, the profile of the caller keeps its
    stats, its balance, its archetype, its height, weight and colour. It
    answers "Âge invalide" exactly for the field "âge" with a value that
    [int] rejects, and then changes nothing; a field it does not know is
    answered as updated, with only [updated_at] changed. *)
Theorem customize_keeps_the_ledger
    (py_int : str -> option Z) (w : World) (db : Store) (i : Interaction)
    (champ valeur : str) (prof : PlayerProfile)
    (Hprof : get_profile db (user i) = Some prof)
    (Hkey : user_id prof = user i) :
  let result := customize_profile py_int w db i champ valeur in
  (result.1 = AgeInvalide <-> champ = py "âge" /\ py_int valeur = None)
  /\ (result.1 = AgeInvalide -> result.2 = db)
  /\ (exists prof',
        get_profile result.2 (user i) = Some prof'
        /\ stats prof' = stats prof
        /\ available_points prof' = available_points prof
        /\ archetype prof' = archetype prof
        /\ height prof' = height prof /\ weight prof' = weight prof
        /\ embed_color prof' = embed_color prof
        /\ created_at prof' = created_at prof)
  /\ (disk_ok w = true ->
      ~ In champ [py "nom"; py "prénom"; py "âge"; py "image"] ->
      result.1 = ProfilMisAJour (py "champ")
      /\ get_profile result.2 (user i) = Some (set_updated_at prof (now w))).
Proof.
  cbv zeta. unfold customize_profile, save_profile. rewrite Hprof.
  match goal with
  | |- context [match ?c with Some _ => _ | None => (AgeInvalide, db) end] =>
      set (changed := c)
  end.
  assert (Hc : match changed with
               | None => champ = py "âge" /\ py_int valeur = None
               | Some (p, f) =>
                   ~ (champ = py "âge" /\ py_int valeur = None)
                   /\ user_id p = user_id prof
                   /\ stats p = stats prof
                   /\ available_points p = available_points prof
                   /\ archetype p = archetype prof
                   /\ height p = height prof /\ weight p = weight prof
                   /\ embed_color p = embed_color prof
                   /\ created_at p = created_at prof
                   /\ (~ In champ [py "nom"; py "prénom"; py "âge"; py "image"] ->
                       p = prof /\ f = py "champ")
               end).
  { subst changed.
    repeat case_bool_decide; subst;
      try match goal with
          | |- context [py_int ?v] => destruct (py_int v) eqn:En
          end;
      repeat split; try reflexivity;
      try (intros [E1 E2]; first [congruence | vm_compute in E1; discriminate E1]);
      try (intros Hn; cbn [In] in Hn; tauto);
      exfalso; match goal with H : ~ In _ _ |- _ => apply H; cbn [In]; auto 6 end. }
  destruct changed as [[p f]|]; cbn [fst snd].
  - destruct Hc as (Hne & Hu & Hs & Ha & Har & Hh & Hw & He & Hcr & Hunk).
    assert (Hget : <[user_id (set_updated_at p (now w)) := set_updated_at p (now w)]>
                     (player_profiles db) !! user i = Some (set_updated_at p (now w))).
    { cbn [user_id set_updated_at]. rewrite Hu, Hkey. apply lookup_insert_eq. }
    destruct (disk_ok w); cbn [fst snd].
    + split; [split; [discriminate|tauto]|]. split; [discriminate|].
      split; [exists (set_updated_at p (now w)); split; [exact Hget|];
              repeat split; assumption|].
      intros _ Hn. destruct (Hunk Hn) as [-> ->]. split; [reflexivity|exact Hget].
    + split; [split; [discriminate|tauto]|]. split; [discriminate|].
      split; [exists prof; split; [exact Hprof|]; repeat split|].
      discriminate.
  - split; [tauto|]. split; [reflexivity|].
    split; [exists prof; split; [exact Hprof|]; repeat split|].
    intros _ Hn. destruct Hc as [-> _]. cbn [In] in Hn. tauto.
Qed.

Lemma customize_keeps_the_ledger_witness :
  (customize_profile (fun _ => None) Sample.world (Sample.store 0 500)
     Sample.from_pivot (py "âge") (py "vingt")).1 = AgeInvalide.
Proof.
  apply (customize_keeps_the_ledger (fun _ => None) Sample.world (Sample.store 0 500)
           Sample.from_pivot (py "âge") (py "vingt") (Sample.profile 0 500)
           eq_refl eq_refl).
  split; reflexivity.
Defined.

(** *** utils.py and the stat bar *)

Lemma fold_left_sum (l : list (str * Z)) : forall a,
  fold_left (fun acc '(_, v) => acc + v) l a = a + sum_points l.
Proof.
  induction l as [|[n v] l IH]; intros a; unfold sum_points in *; cbn [fold_left fold_right snd].
  - lia.
  - rewrite IH. lia.
Qed.

Lemma over_max_errors (l : list (str * Z)) max_stat :
  length (flat_map (fun '(stat_name, value) =>
                      if value >? max_stat
                      then [stat_name ++ py " ne peut pas dépasser " ++ str_of_int max_stat]
                      else []) l)
  = length (filter (fun nv => max_stat <? nv.2) l).
Proof.
  induction l as [|[n v] l IH]; [reflexivity|].
  cbn [flat_map]. rewrite length_app, IH, Z.gtb_ltb.
  rewrite filter_cons. cbn [snd].
  destruct (Z.ltb_spec max_stat v).
  - rewrite decide_True by now apply Is_true_true. reflexivity.
  - rewrite decide_False by (rewrite Is_true_true; discriminate). reflexivity.
Qed.

(** X12. [validate_points_distribution] accepts a distribution exactly when
    no stat is above [max_stat] and the points used, counted from a base of
    50 per stat, fit in the balance; otherwise it returns one message per
    stat above the maximum, and one more when the balance is exceeded. *)
Theorem validate_points_distribution_accepts
    (stats : list (str * Z)) (available_points max_stat : Z) :
  let result := UtilsMore.validate_points_distribution stats available_points max_stat in
  let used := sum_points stats - 50 * Z.of_nat (length stats) in
  (result.1 = true
   <-> Forall (fun nv => nv.2 <= max_stat) stats /\ used <= available_points)
  /\ length result.2
     = Nat.add (length (filter (fun nv => max_stat <? nv.2) stats))
               (if available_points <? used then 1%nat else 0%nat)
  /\ (result.1 = true <-> result.2 = []).
Proof.
  cbv zeta. unfold UtilsMore.validate_points_distribution.
  rewrite fold_left_sum, Z.add_0_l, Z.gtb_ltb. cbn [fst snd].
  set (used := sum_points stats - 50 * Z.of_nat (length stats)).
  set (errors := flat_map _ stats).
  assert (Hlen : length errors = length (filter (fun nv => max_stat <? nv.2) stats))
    by apply over_max_errors.
  assert (Hnone : length (filter (fun nv => max_stat <? nv.2) stats) = 0%nat
                  <-> Forall (fun nv => nv.2 <= max_stat) stats).
  { clear. induction stats as [|[n v] l IH]; [split; auto; constructor|].
    rewrite filter_cons, Forall_cons. cbn [snd]. destruct (Z.ltb_spec max_stat v).
    - rewrite decide_True by now apply Is_true_true. cbn [length]. split; [discriminate|lia].
    - rewrite decide_False by (rewrite Is_true_true; discriminate). rewrite IH. tauto. }
  destruct (Z.ltb_spec available_points used).
  - rewrite length_app, Hlen. cbn [length].
    split; [|split; [lia|]].
    + rewrite bool_decide_eq_true. split; [lia|]. intros [_ ?]. lia.
    + rewrite bool_decide_eq_true. split; [lia|].
      intros E. apply (f_equal length) in E. rewrite length_app in E. cbn in E. lia.
  - rewrite Hlen, Nat.add_0_r. split; [|split; [reflexivity|]].
    + rewrite bool_decide_eq_true, Hnone. tauto.
    + rewrite bool_decide_eq_true. split.
      * intros E. apply length_zero_iff_nil. now rewrite Hlen.
      * intros E. rewrite <- Hlen, E. reflexivity.
Qed.

(** X16. [get_stat_recommendations] answers for every archetype name — with
    the entry of "Généraliste" for a name it does not know — and what it
    answers is sound: every recommended or discouraged stat is one of the
    eight, and no stat is listed twice, so none is both recommended and
    discouraged. *)
Theorem stat_recommendations_are_sound (archetype : str) :
  exists r,
    UtilsMore.get_stat_recommendations archetype = inr r
    /\ Forall (fun s => In s (dict_keys STAT_EMOJIS))
              (UtilsMore.primary r ++ UtilsMore.secondary r ++ UtilsMore.avoid r)
    /\ NoDup (UtilsMore.primary r ++ UtilsMore.secondary r ++ UtilsMore.avoid r)
    /\ (dict_get UtilsMore.recommendations archetype = None ->
        Some r = dict_get UtilsMore.recommendations Generaliste).
Proof.
  unfold UtilsMore.get_stat_recommendations.
  change (dict_get UtilsMore.recommendations Generaliste) with
    (Some {| UtilsMore.primary := [];
             UtilsMore.secondary := [Force_Physique; Precision; Manip_Ballon; Agilite;
                                     Detente; Defense; Vitesse; Endurance];
             UtilsMore.avoid := [] |}).
  unfold UtilsMore.recommendations. cbn [dict_get].
  repeat case_bool_decide; eexists; (split; [reflexivity|]);
    cbn [default from_option id UtilsMore.primary UtilsMore.secondary UtilsMore.avoid app];
    (split; [apply List.Forall_forall; intros s Hs; cbn [In] in Hs;
             repeat (destruct Hs as [<-|Hs]; [vm_compute; auto 10|]); contradiction|]);
    (split; [|first [discriminate | reflexivity]]);
    apply (bool_decide_unpack _); vm_compute; exact I.
Qed.

(** *** The stat bar and the stat marker *)

Lemma str_mul_length (s : str) (n : Z) :
  length (Config.str_mul s n) = (Z.to_nat n * length s)%nat.
Proof.
  unfold Config.str_mul. induction (Z.to_nat n) as [|k IH]; [reflexivity|].
  cbn [replicate concat]. rewrite length_app, IH. lia.
Qed.

Lemma filled_table : forallb (fun n =>
             let v := Z.of_nat n in
             match Config.int_of_float
                     (SFmul prec emax (Utils.truediv v 1000) (Utils.float_of_int 10)) with
             | inr filled => filled =? v / 100
             | inl _ => false
             end)
          (seq 0 1001) = true.
Proof. vm_compute. reflexivity. Qed.

(** X14. For a stat of the legal range, the bar of [get_stat_bar] (with its
    default maximum of 1000) has one full block per started hundred and is
    ten blocks long: the float product never rounds across a hundred. *)
Theorem stat_bar_has_ten_blocks (value : Z) :
  0 <= value <= 1000 ->
  exists bar,
    Config.get_stat_bar value 1000 = inr bar
    /\ bar = Config.str_mul (py "█") (value / 100)
             ++ Config.str_mul (py "░") (10 - value / 100)
    /\ length bar = 10%nat.
Proof.
  intros Hv. pose proof (forallb_seq _ _ filled_table (Z.to_nat value) ltac:(lia)) as H.
  cbv beta zeta in H. rewrite Z2Nat.id in H by lia.
  unfold Config.get_stat_bar. change (1000 =? 0) with false. cbv iota.
  destruct (Config.int_of_float _) as [e|filled]; [discriminate H|].
  apply Z.eqb_eq in H. subst filled. eexists. split; [reflexivity|]. split; [reflexivity|].
  rewrite length_app, !str_mul_length.
  change (length (py "█")) with 1%nat. change (length (py "░")) with 1%nat.
  assert (0 <= value / 100 <= 10).
  { split; [apply Z.div_pos; lia|]. apply Z.div_le_upper_bound; lia. }
  lia.
Qed.

Lemma stat_bar_has_ten_blocks_witness :
  0 <= 734 <= 1000
  /\ exists bar,
       Config.get_stat_bar 734 1000 = inr bar
       /\ bar = Config.str_mul (py "█") (734 / 100)
                ++ Config.str_mul (py "░") (10 - 734 / 100)
       /\ length bar = 10%nat.
Proof. split; [lia | apply (stat_bar_has_ten_blocks 734); lia]. Defined.

Lemma marker_table : forallb (fun n =>
             let v := Z.of_nat n in
             let percentage :=
               SFmul prec emax (Utils.truediv v 100) (Utils.float_of_int 100) in
             eqb (SFleb (Utils.float_of_int 90) percentage) (90 <=? v)
             && eqb (SFleb (Utils.float_of_int 75) percentage) (75 <=? v)
             && eqb (SFleb (Utils.float_of_int 60) percentage) (60 <=? v)
             && eqb (SFleb (Utils.float_of_int 40) percentage) (40 <=? v))
          (seq 0 1001) = true.
Proof. vm_compute. reflexivity. Qed.

(** X15. With its default maximum of 100, [format_stat_value] marks a value
    between 0 and 1000 by the integer thresholds 90, 75, 60 and 40: the
    float percentage never puts a value on the wrong side of one.  A stat
    of 90 or more, and so every stat from 90 to 1000, gets the flame. *)
Theorem format_stat_value_thresholds (value : Z) :
  0 <= value <= 1000 ->
  UtilsMore.format_stat_value value 100
  = inr ((py "**" ++ str_of_int value ++ py "** ")
         ++ (if 90 <=? value then py "🔥"
             else if 75 <=? value then py "⭐"
             else if 60 <=? value then py "✅"
             else if 40 <=? value then py "⚠️"
             else py "❌")).
Proof.
  intros Hv. pose proof (forallb_seq _ _ marker_table (Z.to_nat value) ltac:(lia)) as H.
  cbv beta zeta in H. rewrite Z2Nat.id in H by lia.
  rewrite !andb_true_iff in H. destruct H as [[[H90 H75] H60] H40].
  apply eqb_prop in H90, H75, H60, H40.
  unfold UtilsMore.format_stat_value. change (100 =? 0) with false. cbv iota zeta.
  rewrite H90, H75, H60, H40.
  destruct (90 <=? value), (75 <=? value), (60 <=? value), (40 <=? value); reflexivity.
Qed.

Lemma format_stat_value_thresholds_witness :
  0 <= 75 <= 1000
  /\ UtilsMore.format_stat_value 75 100 = inr (py "**75** ⭐").
Proof. split; [lia | apply (format_stat_value_thresholds 75); lia]. Defined.

(** *** The leaderboard *)

Section SortReverseFacts.
Context {A : Type} (key : A -> Z).

Lemma insert_reverse_perm (x : A) (l : list A) :
  Permutation (insert_reverse key x l) (x :: l).
Proof.
  induction l as [|y l IH]; cbn [insert_reverse]; [reflexivity|].
  destruct (key x <? key y); [|reflexivity].
  rewrite IH. apply perm_swap.
Qed.

Lemma sort_reverse_perm (l : list A) : Permutation (sort_reverse key l) l.
Proof.
  induction l as [|x l IH]; cbn; [reflexivity|].
  rewrite insert_reverse_perm. now constructor.
Qed.

Lemma insert_reverse_sorted (x : A) (l : list A) :
  StronglySorted (fun p q => key q <= key p) l ->
  StronglySorted (fun p q => key q <= key p) (insert_reverse key x l).
Proof.
  induction 1 as [|y l Hl IH Hy]; cbn [insert_reverse]; [repeat constructor|].
  destruct (Z.ltb_spec (key x) (key y)).
  - constructor; [exact IH|].
    apply List.Forall_forall. intros q Hq.
    apply (Permutation_in _ (insert_reverse_perm x l)) in Hq as [<-|Hq]; [lia|].
    rewrite List.Forall_forall in Hy. now apply Hy.
  - constructor; [now constructor|].
    constructor; [exact H|].
    rewrite List.Forall_forall in Hy |- *. intros q Hq. specialize (Hy q Hq). lia.
Qed.

Lemma sort_reverse_sorted (l : list A) :
  StronglySorted (fun p q => key q <= key p) (sort_reverse key l).
Proof.
  induction l as [|x l IH]; cbn; [constructor|]. now apply insert_reverse_sorted.
Qed.

Lemma sorted_split (R : A -> A -> Prop) (l1 l2 : list A) :
  StronglySorted R (l1 ++ l2) ->
  StronglySorted R l1 /\ forall p q, In p l1 -> In q l2 -> R p q.
Proof.
  induction l1 as [|x l1 IH]; cbn [app]; intros H.
  - split; [constructor|]. intros p q [].
  - inversion H as [|? ? Hs Hx]; subst. destruct (IH Hs) as [IH1 IH2].
    rewrite List.Forall_forall in Hx. split.
    + constructor; [exact IH1|]. apply List.Forall_forall. intros q Hq.
      apply Hx, in_or_app. now left.
    + intros p q [<-|Hp] Hq; [|now apply IH2].
      apply Hx, in_or_app. now right.
Qed.

(** The first [n] of the sorted list: as many as there are, in decreasing
    order of the key, and no element left out has a greater key. *)
Lemma top_of_sort_reverse (n : nat) (l : list A) :
  let shown := take n (sort_reverse key l) in
  let rest := drop n (sort_reverse key l) in
  Permutation (shown ++ rest) l
  /\ length shown = Nat.min n (length l)
  /\ StronglySorted (fun p q => key q <= key p) shown
  /\ (forall p q, In p shown -> In q rest -> key q <= key p).
Proof.
  cbv zeta. split; [|split].
  - rewrite take_drop. apply sort_reverse_perm.
  - rewrite length_take, (Permutation_length (sort_reverse_perm l)). reflexivity.
  - apply sorted_split. rewrite take_drop. apply sort_reverse_sorted.
Qed.

End SortReverseFacts.

Lemma sort_reverse_map {A B : Type} (f : A -> B) (key : B -> Z) (l : list A) :
  sort_reverse key (map f l) = map f (sort_reverse (fun a => key (f a)) l).
Proof.
  induction l as [|x l IH]; [reflexivity|].
  cbn [map sort_reverse foldr]. fold (sort_reverse key (map f l)).
  fold (sort_reverse (fun a => key (f a)) l). rewrite IH.
  generalize (sort_reverse (fun a => key (f a)) l). intros s.
  induction s as [|y s IHs]; [reflexivity|].
  cbn [map insert_reverse]. destruct (key (f x) <? key (f y)); [|reflexivity].
  cbn [map]. now rewrite IHs.
Qed.

Lemma stat_keys_all (statistique : str) (profiles : list PlayerProfile) :
  Forall (fun p => is_Some (stats p !! statistique)) profiles ->
  BasketballCog.stat_keys profiles statistique
  = inr (map (fun p => (p, default 0 (stats p !! statistique))) profiles).
Proof.
  induction 1 as [|p l [v E] _ IH]; [reflexivity|].
  cbn [BasketballCog.stat_keys map]. now rewrite E, IH.
Qed.

Lemma stat_keys_missing (statistique : str) (profiles : list PlayerProfile) :
  Exists (fun p => stats p !! statistique = None) profiles ->
  BasketballCog.stat_keys profiles statistique = inl (KeyError statistique).
Proof.
  induction 1 as [p l E|p l _ IH]; cbn [BasketballCog.stat_keys].
  - now rewrite E.
  - rewrite IH. now destruct (stats p !! statistique).
Qed.

(** X13. Without a stat, [/leaderboard] answers "no profile" for an empty
    list and otherwise shows the players with the highest totals: at most
    ten rows, in decreasing order of [get_total_stats], no player left out
    has a greater total than one shown, and the footer counts every
    profile. *)
Theorem leaderboard_shows_the_highest_totals (profiles : list PlayerProfile) :
  let total := PlayerProfile.get_total_stats in
  match profiles with
  | [] => BasketballCog.leaderboard profiles None = AucunProfil
  | _ :: _ =>
      exists shown rest,
        BasketballCog.leaderboard profiles None
        = Classement (map (fun p => (username p, total p)) shown) (length profiles)
        /\ Permutation (shown ++ rest) profiles
        /\ length shown = Nat.min 10 (length profiles)
        /\ StronglySorted (fun p q => total q <= total p) shown
        /\ (forall p q, In p shown -> In q rest -> total q <= total p)
  end.
Proof.
  cbv zeta. destruct profiles as [|p0 l]; [reflexivity|].
  eexists _, _. split; [reflexivity|].
  apply (top_of_sort_reverse PlayerProfile.get_total_stats 10 (p0 :: l)).
Qed.

(** X18. With a stat that every listed profile has, [/leaderboard] shows the
    players with the highest values of that stat, at most ten, in decreasing
    order; when one profile lacks the stat the command raises KeyError. *)
Theorem leaderboard_by_stat (profiles : list PlayerProfile) (statistique : str) :
  profiles <> [] -> statistique <> [] ->
  let value := fun p => default 0 (stats p !! statistique) in
  (Forall (fun p => is_Some (stats p !! statistique)) profiles ->
   exists shown rest,
     BasketballCog.leaderboard profiles (Some statistique)
     = Classement (map (fun p => (username p, value p)) shown) (length profiles)
     /\ Permutation (shown ++ rest) profiles
     /\ length shown = Nat.min 10 (length profiles)
     /\ StronglySorted (fun p q => value q <= value p) shown
     /\ (forall p q, In p shown -> In q rest -> value q <= value p))
  /\ (Exists (fun p => stats p !! statistique = None) profiles ->
      BasketballCog.leaderboard profiles (Some statistique)
      = Common (Raised (KeyError statistique))).
Proof.
  intros Hp Hs. cbv zeta.
  destruct profiles as [|p0 l]; [congruence|].
  destruct statistique as [|c s]; [congruence|].
  unfold BasketballCog.leaderboard. split.
  - intros Hall. rewrite (stat_keys_all _ _ Hall).
    rewrite (sort_reverse_map (fun p => (p, default 0 (stats p !! (c :: s)))) snd).
    cbn [snd]. rewrite firstn_map, map_map. cbn [fst snd].
    eexists _, _. split; [reflexivity|].
    apply (top_of_sort_reverse (fun p => default 0 (stats p !! (c :: s))) 10 (p0 :: l)).
  - intros Hex. now rewrite (stat_keys_missing _ _ Hex).
Qed.

Lemma leaderboard_by_stat_witness :
  let profiles := [Sample.profile 3 120; Sample.profile 0 480] in
  let value := fun p => default 0 (stats p !! Vitesse) in
  exists shown rest,
    BasketballCog.leaderboard profiles (Some Vitesse)
    = Classement (map (fun p => (username p, value p)) shown) (length profiles)
    /\ Permutation (shown ++ rest) profiles
    /\ length shown = Nat.min 10 (length profiles)
    /\ StronglySorted (fun p q => value q <= value p) shown
    /\ (forall p q, In p shown -> In q rest -> value q <= value p).
Proof.
  cbv zeta.
  apply (leaderboard_by_stat [Sample.profile 3 120; Sample.profile 0 480] Vitesse).
  - discriminate.
  - discriminate.
  - repeat constructor; vm_compute; eauto.
Defined.
